(** * A shallow embedding of the Express/Sequelize route handlers of
    [src/index.js] (users and their addresses).

    Request fields ([req.query.*], [req.body.*], [req.params.*]) are modelled
    as [option string]: [None] is [undefined], [Some s] a submitted text
    value, which is what the app's HTML forms and query strings send.
    Strings are ASCII; [trim] removes the ASCII white space characters and
    [String.length] counts characters. JavaScript numbers are modelled as
    integers ([Z]); they are exact below 2^53, the range the numeric
    properties assume.

    The storage backend (Sequelize over MySQL) is an in-memory database with
    a fault schedule: every storage call consumes one entry of [db_faults]
    and raises when that entry is [true] (a lost connection, a refused
    statement). The keys are integers (auto-increment [INT] columns); the
    way the backend compares them with the strings the app sends, converts
    such strings on insert, and evaluates [LIKE] is the database's [Backend]:
    every property holds for any backend, and [Mysql.backend] is the one of
    MySQL used in the examples. [console.log] and [console.error] append to
    [db_log]. *)

From Stdlib Require Import String Ascii List ZArith Bool Lia Sorted SpecFloat.
Import ListNotations.

Open Scope string_scope.
Open Scope Z_scope.
Open Scope list_scope.

(** ** JavaScript primitives *)
Module Js.

(** White space removed by [String.prototype.trim] (ASCII part). *)
Definition is_space (c : ascii) : bool :=
  match nat_of_ascii c with
  | 9 | 10 | 11 | 12 | 13 | 32 => true
  | _ => false
  end%nat.

Fixpoint ltrim_l (l : list ascii) : list ascii :=
  match l with
  | c :: r => if is_space c then ltrim_l r else l
  | [] => []
  end.

(** [s.trim()] *)
Definition trim (s : string) : string :=
  string_of_list_ascii (rev (ltrim_l (rev (ltrim_l (list_ascii_of_string s))))).

(** JavaScript truthiness of a string-or-undefined value: [undefined] and
    [""] are falsy. *)
Definition truthy (v : option string) : bool :=
  match v with
  | Some s => negb (String.eqb s "")
  | None => false
  end.

(** [`${v}`] in a template literal. *)
Definition template (v : option string) : string :=
  match v with
  | Some s => s
  | None => "undefined"
  end.

(** [v === s] for a string-or-undefined [v] and a string literal [s]. *)
Definition strict_eq (v : option string) (s : string) : bool :=
  match v with
  | Some x => String.eqb x s
  | None => false
  end.

(** [v || d] for a string-or-undefined [v] and a string [d]. *)
Definition or_string (v : option string) (d : string) : string :=
  if truthy v then template v else d.

(** The value of a digit in radix up to 36. *)
Definition digit_value (c : ascii) : option Z :=
  let n := Z.of_nat (nat_of_ascii c) in
  if (48 <=? n) && (n <=? 57) then Some (n - 48)
  else if (97 <=? n) && (n <=? 122) then Some (n - 87)
  else if (65 <=? n) && (n <=? 90) then Some (n - 55)
  else None.

(** The longest prefix of radix-[radix] digits, accumulated into [acc];
    [None] when the prefix is empty ([seen = false]). *)
Fixpoint digits (radix : Z) (l : list ascii) (acc : Z) (seen : bool) : option Z :=
  match l with
  | c :: r =>
      match digit_value c with
      | Some d => if (d <? radix)%Z then digits radix r (acc * radix + d)%Z true
                  else if seen then Some acc else None
      | None => if seen then Some acc else None
      end
  | [] => if seen then Some acc else None
  end.

(** [parseInt(v)] with no radix: [None] is [NaN]. [parseInt(undefined)]
    parses the string "undefined". Leading white space, a sign and a
    "0x"/"0X" prefix (radix 16) are recognised. *)
Definition parseInt (v : option string) : option Z :=
  let s := ltrim_l (list_ascii_of_string (template v)) in
  let '(sign, s) :=
    match s with
    | "-"%char :: r => ((-1)%Z, r)
    | "+"%char :: r => (1%Z, r)
    | _ => (1%Z, s)
    end in
  let '(radix, s) :=
    match s with
    | "0"%char :: "x"%char :: r => (16%Z, r)
    | "0"%char :: "X"%char :: r => (16%Z, r)
    | _ => (10%Z, s)
    end in
  match digits radix s 0%Z false with
  | Some z => Some (sign * z)%Z
  | None => None
  end.

(** [n || d] for a number [n] ([None] is [NaN]): [NaN] and [0] (also [-0])
    are falsy. *)
Definition or_number (n : option Z) (d : Z) : Z :=
  match n with
  | Some z => if Z.eqb z 0 then d else z
  | None => d
  end.

(** [Math.ceil(a / b)] for integers [a] and [b <> 0]. *)
Definition ceil_div (a b : Z) : Z := (- ((- a) / b))%Z.

(** The decimal digits of [n >= 0], prepended to [acc]. *)
Fixpoint decimal_aux (fuel : nat) (n : Z) (acc : string) : string :=
  match fuel with
  | O => acc
  | S f =>
      let acc' := String (ascii_of_nat (48 + Z.to_nat (n mod 10))) acc in
      if n <? 10 then acc' else decimal_aux f (n / 10) acc'
  end.

(** [String(n)] for an integer [n]. *)
Definition number_string (n : Z) : string :=
  let s := decimal_aux (S (Z.to_nat (Z.log2 (Z.abs n)))) (Z.abs n) "" in
  if n <? 0 then ("-" ++ s)%string else s.

End Js.

Example parseInt_tests :
  Js.parseInt (Some " 12abc") = Some 12 /\ Js.parseInt (Some "-0x1f") = Some (-31)%Z
  /\ Js.parseInt None = None /\ Js.parseInt (Some "") = None
  /\ Js.parseInt (Some "2.5") = Some 2 /\ Js.trim "  Bob  " = "Bob"%string.
Proof. repeat split; reflexivity. Qed.

(** ** Data model *)

(** A row of the [User] model: [user_id] is the auto-increment integer
    primary key, [user_createdAt] the creation timestamp. *)
Record User := mkUser {
  user_id : Z;
  user_name : string;
  user_occupation : option string;
  user_newsletter : bool;
  user_createdAt : Z
}.

(** A row of the [Address] model; [address_userId] is the integer foreign
    key to [User]. *)
Record Address := mkAddress {
  address_id : Z;
  address_street : string;
  address_number : option string;
  address_city : string;
  address_userId : Z;
  address_createdAt : Z
}.

(** How the storage backend treats the values the application sends.
    Sequelize passes a request string used as a key unchanged (quoted) into
    the SQL, and MySQL converts it to a number; these conversions, and the
    [LIKE] operator of the column's collation, are those of the backend. *)
Record Backend := mkBackend {
  (** [key = 's'] in a [WHERE] clause, for an integer key. *)
  key_eq : Z -> string -> bool;
  (** Whether an [UPDATE] or [DELETE] accepts ['s'] compared with an integer
      key (strict mode refuses a string that does not convert cleanly). *)
  key_accepted : string -> bool;
  (** The integer an [INSERT] stores for ['s'] in an integer column, [None]
      when it refuses the value. *)
  key_of : string -> option Z;
  (** [value LIKE pattern]; the pattern comes first. *)
  like : string -> string -> bool
}.

(** *** MySQL (8.0, strict mode, a case-insensitive default collation) *)
Module Mysql.

(** The decimal digits at the head of [l], accumulated into [m], with
    their number [n] and the rest of [l]. *)
Fixpoint dec_digits (l : list ascii) (m n : Z) : Z * Z * list ascii :=
  match l with
  | c :: r =>
      match Js.digit_value c with
      | Some d => if d <? 10 then dec_digits r (m * 10 + d) (n + 1) else (m, n, l)
      | None => (m, n, l)
      end
  | [] => (m, n, l)
  end.

Definition sign_of (l : list ascii) : Z * list ascii :=
  match l with
  | "-"%char :: r => (-1, r)
  | "+"%char :: r => (1, r)
  | _ => (1, l)
  end.

(** The longest numeric prefix [[sign] digits [. digits] [e [sign] digits]]
    after leading white space, as [(sign, m, e)] for [sign * m * 10^e], and
    the unread rest; [None] when it has no digit. *)
Definition number_prefix (s : string) : option (Z * Z * Z) * list ascii :=
  let l := Js.ltrim_l (list_ascii_of_string s) in
  let '(sg, l1) := sign_of l in
  let '(m1, n1, l2) := dec_digits l1 0 0 in
  let '(m2, n2, l3) :=
    match l2 with
    | "."%char :: r => dec_digits r m1 0
    | _ => (m1, 0, l2)
    end in
  if n1 + n2 =? 0 then (None, list_ascii_of_string s)
  else
    let '(ex, l4) :=
      match l3 with
      | c :: r =>
          if Ascii.eqb c "e" || Ascii.eqb c "E" then
            let '(es, r1) := sign_of r in
            let '(e, ne, r2) := dec_digits r1 0 0 in
            if ne =? 0 then (0, l3) else (es * e, r2)
          else (0, l3)
      | [] => (0, l3)
      end in
    (Some (sg, m2, ex - n2), l4).

Definition rest_is_space (l : list ascii) : bool := forallb Js.is_space l.

(** The double nearest to [m * 10^e] for [m >= 0] (ties to even). *)
Definition double_of_decimal (m e : Z) : spec_float :=
  if 0 <=? e then binary_normalize 53 1024 (m * 10 ^ e) 0 false
  else if m =? 0 then S754_zero false
  else
    let '(mz, ez, lz) := SFdiv_core_binary 53 1024 m 0 (10 ^ (- e)) 0 in
    binary_round_aux 53 1024 false mz ez lz.

(** A string compared with a number is read as a double: its numeric
    prefix, 0 when it has none. *)
Definition double_of_string (s : string) : spec_float :=
  match fst (number_prefix s) with
  | Some (sg, m, e) =>
      if sg <? 0 then SFopp (double_of_decimal m e) else double_of_decimal m e
  | None => S754_zero false
  end.

(** An integer key and a string are compared as doubles. *)
Definition key_eq (k : Z) (s : string) : bool :=
  SFeqb (binary_normalize 53 1024 k 0 false) (double_of_string s).

Definition key_accepted (s : string) : bool :=
  match number_prefix s with
  | (Some _, rest) => rest_is_space rest
  | (None, _) => false
  end.

(** [m * 10^e] rounded to an integer, halves away from zero. *)
Definition round_decimal (m e : Z) : Z :=
  if 0 <=? e then m * 10 ^ e
  else
    let d := 10 ^ (- e) in
    if d <=? 2 * (m mod d) then m / d + 1 else m / d.

(** An [INT] column stores a numeric string rounded, and refuses one with
    other characters or out of range. *)
Definition key_of (s : string) : option Z :=
  match number_prefix s with
  | (Some (sg, m, e), rest) =>
      let k := sg * round_decimal m e in
      if rest_is_space rest && (- 2 ^ 31 <=? k) && (k <? 2 ^ 31) then Some k else None
  | (None, _) => None
  end.

(** A [LIKE] pattern: [%] matches any sequence, [_] one character, and
    [\] makes the next character literal (a final [\] is literal). *)
Inductive LikeToken := Any | One | Lit (c : ascii).

Fixpoint like_tokens (p : list ascii) : list LikeToken :=
  match p with
  | "\"%char :: c :: r => Lit c :: like_tokens r
  | "%"%char :: r => Any :: like_tokens r
  | "_"%char :: r => One :: like_tokens r
  | c :: r => Lit c :: like_tokens r
  | [] => []
  end.

(** Letters are compared without regard to case. *)
Definition fold_case (c : ascii) : ascii :=
  let n := nat_of_ascii c in
  if (65 <=? n)%nat && (n <=? 90)%nat then ascii_of_nat (n + 32) else c.

Fixpoint like_match (p : list LikeToken) (s : list ascii) : bool :=
  match p with
  | [] => match s with [] => true | _ => false end
  | Any :: p' =>
      (fix star (s : list ascii) : bool :=
         like_match p' s || match s with [] => false | _ :: s' => star s' end) s
  | One :: p' => match s with [] => false | _ :: s' => like_match p' s' end
  | Lit c :: p' =>
      match s with
      | [] => false
      | d :: s' => Ascii.eqb (fold_case c) (fold_case d) && like_match p' s'
      end
  end.

Definition like (pattern s : string) : bool :=
  like_match (like_tokens (list_ascii_of_string pattern)) (list_ascii_of_string s).

Definition backend : Backend := mkBackend key_eq key_accepted key_of like.

End Mysql.

(** The database, the storage fault schedule, the console and the
    backend. *)
Record DB := mkDB {
  db_users : list User;
  db_addresses : list Address;
  db_next : nat;
  db_faults : list bool;
  db_log : list string;
  db_backend : Backend
}.

Definition set_users (us : list User) (db : DB) : DB :=
  mkDB us (db_addresses db) (db_next db) (db_faults db) (db_log db) (db_backend db).
Definition set_addresses (as_ : list Address) (db : DB) : DB :=
  mkDB (db_users db) as_ (db_next db) (db_faults db) (db_log db) (db_backend db).
Definition set_next (n : nat) (db : DB) : DB :=
  mkDB (db_users db) (db_addresses db) n (db_faults db) (db_log db) (db_backend db).
Definition set_faults (fs : list bool) (db : DB) : DB :=
  mkDB (db_users db) (db_addresses db) (db_next db) fs (db_log db) (db_backend db).
Definition set_log (l : list string) (db : DB) : DB :=
  mkDB (db_users db) (db_addresses db) (db_next db) (db_faults db) l (db_backend db).

(** The body of a POST request ([req.body]) and the query of a GET request
    ([req.query]): every field may be [undefined]. *)
Record Body := mkBody {
  body_id : option string;
  body_name : option string;
  body_occupation : option string;
  body_newsletter : option string;
  body_userId : option string;
  body_street : option string;
  body_number : option string;
  body_city : option string
}.

Definition empty_body : Body := mkBody None None None None None None None None.

Record Query := mkQuery {
  query_page : option string;
  query_limit : option string;
  query_q : option string;
  query_newsletter : option string
}.

(** The object passed to [res.render]; an absent key is [None]. *)
Record RenderData := mkRenderData {
  rd_users : option (list User);
  rd_currentPage : option Z;
  rd_totalPages : option Z;
  rd_q : option string;
  rd_newsletter : option string;
  rd_error : option string;
  rd_formData : option Body;
  rd_user : option (User * list Address)
}.

Definition no_data : RenderData := mkRenderData None None None None None None None None.

Definition with_error (e : string) : RenderData :=
  mkRenderData None None None None None (Some e) None None.

Inductive Response :=
| Render (view : string) (data : RenderData)
| Redirect (url : string).

(** ** A state and exception monad: a handler body runs against the
    database and may throw (a rejected promise awaited in an [async]
    function). *)

Inductive Result (A : Type) :=
| Ok (a : A)
| Err (message : string).
Arguments Ok {A} a.
Arguments Err {A} message.

Definition M (A : Type) : Type := DB -> Result A * DB.

Definition ret {A} (a : A) : M A := fun db => (Ok a, db).

Definition bind {A B} (m : M A) (k : A -> M B) : M B :=
  fun db => match m db with
            | (Ok a, db') => k a db'
            | (Err e, db') => (Err e, db')
            end.

Notation "x <- m ;; k" := (bind m (fun x => k))
  (at level 61, m at next level, right associativity).

Definition throw {A} (e : string) : M A := fun db => (Err e, db).

(** [try { body } catch (error) { handler }] *)
Definition try_catch {A} (body : M A) (handler : string -> M A) : M A :=
  fun db => match body db with
            | (Err e, db') => handler e db'
            | r => r
            end.

(** [console.log] and [console.error]. *)
Definition log (msg : string) : M unit :=
  fun db => (Ok tt, set_log (db_log db ++ [msg]) db).

(** A call into the storage backend: it consumes one entry of the fault
    schedule and fails when that entry is [true]. *)
Definition storage {A} (op : DB -> Result A * DB) : M A :=
  fun db => match db_faults db with
            | true :: fs => (Err "storage failure", set_faults fs db)
            | false :: fs => op (set_faults fs db)
            | [] => op db
            end.

(** The next entry of the fault schedule. *)
Definition next_fault (db : DB) : bool :=
  match db_faults db with
  | b :: _ => b
  | [] => false
  end.

(** ** The Sequelize model operations used by the handlers *)
Module Sequelize.

(** The [where] object of the listing query. *)
Record UserWhere := mkUserWhere {
  where_name : option string;        (* { [Op.like]: pattern } *)
  where_newsletter : option bool
}.

Definition user_matches (bk : Backend) (w : UserWhere) (u : User) : bool :=
  match where_name w with
  | Some p => like bk p (user_name u)
  | None => true
  end &&
  match where_newsletter w with
  | Some b => Bool.eqb b (user_newsletter u)
  | None => true
  end.

(** [order: [['createdAt', 'DESC']]] *)
Fixpoint insert_desc (u : User) (l : list User) : list User :=
  match l with
  | [] => [u]
  | v :: r => if user_createdAt v <? user_createdAt u then u :: l
              else v :: insert_desc u r
  end.

Fixpoint order_createdAt_desc (l : list User) : list User :=
  match l with
  | [] => []
  | u :: r => insert_desc u (order_createdAt_desc r)
  end.

(** A [where] attribute that is [undefined] is refused by the query
    builder; a key the backend does not accept in an [UPDATE] or [DELETE]
    is refused by the backend. *)
Definition where_key {A} (v : option string) (k : string -> DB -> Result A * DB)
    : DB -> Result A * DB :=
  match v with
  | Some x => fun db =>
      if key_accepted (db_backend db) x then k x db
      else (Err "Truncated incorrect DOUBLE value", db)
  | None => fun db => (Err "WHERE parameter has invalid undefined value", db)
  end.

(** The largest [LIMIT] or [OFFSET] MySQL accepts (BIGINT UNSIGNED). *)
Definition max_limit : Z := 2 ^ 64 - 1.

(** [User.findAndCountAll({ where, order, limit, offset, raw: true })]:
    the page of matching rows and the number of all matching rows. MySQL
    rejects a [LIMIT] or [OFFSET] that is negative or beyond BIGINT
    UNSIGNED. *)
Definition User_findAndCountAll (w : UserWhere) (limit offset : Z)
    : M (list User * nat) :=
  storage (fun db =>
    if (limit <? 0) || (offset <? 0) || (max_limit <? limit) || (max_limit <? offset)
    then (Err "SQL syntax error", db)
    else
      let matched := filter (user_matches (db_backend db) w) (db_users db) in
      (Ok (firstn (Z.to_nat limit) (skipn (Z.to_nat offset) (order_createdAt_desc matched)),
           length matched), db)).

(** The addresses joined to a user ([ON User.id = addresses.userId]). *)
Definition addresses_of (u : User) (db : DB) : list Address :=
  filter (fun a => Z.eqb (address_userId a) (user_id u)) (db_addresses db).

(** [WHERE User.id = 'id' LIMIT 1] *)
Definition find_user (id : string) (db : DB) : option User :=
  find (fun u => key_eq (db_backend db) (user_id u) id) (db_users db).

(** [User.findByPk(id, { include: [{ model: Address, as: 'addresses' }] })] *)
Definition User_findByPk (id : string) : M (option (User * list Address)) :=
  storage (fun db =>
    match find_user id db with
    | Some u => (Ok (Some (u, addresses_of u db)), db)
    | None => (Ok None, db)
    end).

(** [User.create({ name, occupation, newsletter })]: the key and the
    timestamp are generated by the storage. *)
Definition User_create (name : string) (occupation : option string) (newsletter : bool)
    : M User :=
  storage (fun db =>
    let u := mkUser (Z.of_nat (db_next db)) name occupation newsletter (Z.of_nat (db_next db)) in
    (Ok u, set_next (S (db_next db)) (set_users (db_users db ++ [u]) db))).

(** [User.update({ name, occupation, newsletter }, { where: { id } })]:
    the number of updated rows. *)
Definition User_update (name : string) (occupation : option string) (newsletter : bool)
    (id : option string) : M nat :=
  storage (where_key id (fun i db =>
    let hit u := key_eq (db_backend db) (user_id u) i in
    let upd u := if hit u
                 then mkUser (user_id u) name occupation newsletter (user_createdAt u)
                 else u in
    (Ok (length (filter hit (db_users db))), set_users (map upd (db_users db)) db))).

(** [User.destroy({ where: { id } })] *)
Definition User_destroy (id : option string) : M nat :=
  storage (where_key id (fun i db =>
    let hit u := key_eq (db_backend db) (user_id u) i in
    (Ok (length (filter hit (db_users db))),
     set_users (filter (fun u => negb (hit u)) (db_users db)) db))).

(** [Address.destroy({ where: { userId } })] *)
Definition Address_destroy_userId (userId : option string) : M nat :=
  storage (where_key userId (fun i db =>
    let hit a := key_eq (db_backend db) (address_userId a) i in
    (Ok (length (filter hit (db_addresses db))),
     set_addresses (filter (fun a => negb (hit a)) (db_addresses db)) db))).

(** [Address.destroy({ where: { id } })] *)
Definition Address_destroy_id (id : option string) : M nat :=
  storage (where_key id (fun i db =>
    let hit a := key_eq (db_backend db) (address_id a) i in
    (Ok (length (filter hit (db_addresses db))),
     set_addresses (filter (fun a => negb (hit a)) (db_addresses db)) db))).

(** [Address.create({ street, number, city, userId })]. Modelled from the
    spec (the [Address] model, models/Address, is not in the sources): its
    [userId] is required, so an [undefined] one is a validation error, and
    it is a foreign key to [User], so the backend stores the integer it
    converts the value to only when a user has that key. *)
Definition Address_create (street : string) (number : option string) (city : string)
    (userId : option string) : M Address :=
  storage (fun db =>
    match userId with
    | None => (Err "notNull Violation: Address.userId cannot be null", db)
    | Some uid =>
        match key_of (db_backend db) uid with
        | None => (Err "Incorrect integer value for column 'userId'", db)
        | Some k =>
            if existsb (fun u => Z.eqb (user_id u) k) (db_users db) then
              let a := mkAddress (Z.of_nat (db_next db)) street number city k
                         (Z.of_nat (db_next db)) in
              (Ok a, set_next (S (db_next db)) (set_addresses (db_addresses db ++ [a]) db))
            else (Err "Cannot add or update a child row: a foreign key constraint fails", db)
        end
    end).

End Sequelize.

(** ** The route handlers *)
Module Routes.
Import Sequelize.

(** [parseInt(req.query.page) || 1] *)
Definition page_param (qr : Query) : Z := Js.or_number (Js.parseInt (query_page qr)) 1.

(** [parseInt(req.query.limit) || 3] *)
Definition limit_param (qr : Query) : Z := Js.or_number (Js.parseInt (query_limit qr)) 3.

(** The [where] object built from [q] and [newsletter]. *)
Definition listing_where (qr : Query) : UserWhere :=
  mkUserWhere
    (if Js.truthy (query_q qr)
     then Some ("%" ++ Js.template (query_q qr) ++ "%")%string else None)
    (if Js.truthy (query_newsletter qr)
     then Some (Js.strict_eq (query_newsletter qr) "true") else None).

(** [GET /] *)
Definition get_root (qr : Query) : M Response :=
  try_catch
    (let page := page_param qr in
     let limit := limit_param qr in
     let offset := (page - 1) * limit in
     r <- User_findAndCountAll (listing_where qr) limit offset ;;
     let '(users, count) := r in
     ret (Render "home"
            (mkRenderData (Some users) (Some page)
               (Some (Js.ceil_div (Z.of_nat count) limit))
               (query_q qr) (query_newsletter qr) None None None)))
    (fun e =>
       _ <- log ("Erro ao carregar usuários: " ++ e)%string ;;
       ret (Render "home"
              (mkRenderData (Some []) None None None None
                 (Some "Erro ao carregar usuários") None None))).

(** [!name || name.trim().length < 2] *)
Definition name_invalid (name : option string) : bool :=
  negb (Js.truthy name) || (String.length (Js.trim (Js.template name)) <? 2)%nat.

(** [occupation ? occupation.trim() : null] *)
Definition trim_or_null (v : option string) : option string :=
  if Js.truthy v then Some (Js.trim (Js.template v)) else None.

(** [POST /users/create] *)
Definition post_users_create (b : Body) : M Response :=
  try_catch
    (let name := body_name b in
     let occupation := body_occupation b in
     let newsletter := body_newsletter b in
     if name_invalid name then
       ret (Render "adduser"
              (mkRenderData None None None None None
                 (Some "Nome deve ter pelo menos 2 caracteres")
                 (Some (mkBody None name occupation newsletter None None None None))
                 None))
     else
       user <- User_create (Js.trim (Js.template name)) (trim_or_null occupation)
                 (Js.strict_eq newsletter "on") ;;
       _ <- log ("Usuário criado: " ++ Js.number_string (user_id user))%string ;;
       ret (Redirect "/"))
    (fun e =>
       _ <- log ("Erro ao criar usuário: " ++ e)%string ;;
       ret (Render "adduser"
              (mkRenderData None None None None None
                 (Some ("Erro ao criar usuário: " ++ e)%string) (Some b) None))).

(** [GET /users/:id] *)
Definition get_users_id (id : string) : M Response :=
  try_catch
    (r <- User_findByPk id ;;
     match r with
     | None => ret (Render "userview" (with_error "Usuário não encontrado"))
     | Some u => ret (Render "userview"
                        (mkRenderData None None None None None None None (Some u)))
     end)
    (fun e =>
       _ <- log ("Erro ao buscar usuário: " ++ e)%string ;;
       ret (Render "userview" (with_error "Erro ao carregar usuário"))).

(** [GET /users/edit/:id] *)
Definition get_users_edit (id : string) : M Response :=
  try_catch
    (r <- User_findByPk id ;;
     match r with
     | None => ret (Redirect "/")
     | Some u => ret (Render "useredit"
                        (mkRenderData None None None None None None None (Some u)))
     end)
    (fun e =>
       _ <- log ("Erro ao buscar usuário para edição: " ++ e)%string ;;
       ret (Redirect "/")).

(** [POST /users/update] *)
Definition post_users_update (b : Body) : M Response :=
  try_catch
    (let id := body_id b in
     let name := body_name b in
     if name_invalid name then ret (Redirect ("/users/edit/" ++ Js.template id)%string)
     else
       updatedRows <- User_update (Js.trim (Js.template name))
                        (trim_or_null (body_occupation b))
                        (Js.strict_eq (body_newsletter b) "on") id ;;
       _ <- (if (0 <? updatedRows)%nat
             then log ("Usuário " ++ Js.template id ++ " atualizado com sucesso")%string
             else ret tt) ;;
       ret (Redirect "/"))
    (fun e =>
       _ <- log ("Erro ao atualizar usuário: " ++ e)%string ;;
       ret (Redirect ("/users/edit/" ++ Js.or_string (body_id b) "")%string)).

(** [POST /users/delete/:id] *)
Definition post_users_delete (id : string) : M Response :=
  try_catch
    (_ <- Address_destroy_userId (Some id) ;;
     deletedRows <- User_destroy (Some id) ;;
     _ <- (if (0 <? deletedRows)%nat
           then log ("Usuário " ++ id ++ " e seus endereços foram excluídos")%string
           else ret tt) ;;
     ret (Redirect "/"))
    (fun e =>
       _ <- log ("Erro ao excluir usuário: " ++ e)%string ;;
       ret (Redirect "/")).

(** [!street || street.trim().length < 5 || !city || city.trim().length < 2] *)
Definition address_invalid (street city : option string) : bool :=
  negb (Js.truthy street) || (String.length (Js.trim (Js.template street)) <? 5)%nat
  || negb (Js.truthy city) || (String.length (Js.trim (Js.template city)) <? 2)%nat.

(** [POST /address/create] *)
Definition post_address_create (b : Body) : M Response :=
  try_catch
    (let userId := body_userId b in
     if address_invalid (body_street b) (body_city b)
     then ret (Redirect ("/users/edit/" ++ Js.template userId)%string)
     else
       address <- Address_create (Js.trim (Js.template (body_street b)))
                    (trim_or_null (body_number b))
                    (Js.trim (Js.template (body_city b))) userId ;;
       _ <- log ("Endereço criado: " ++ Js.number_string (address_id address))%string ;;
       ret (Redirect ("/users/edit/" ++ Js.template userId)%string))
    (fun e =>
       _ <- log ("Erro ao criar endereço: " ++ e)%string ;;
       ret (Redirect ("/users/edit/" ++ Js.or_string (body_userId b) "")%string)).

(** [POST /address/delete] *)
Definition post_address_delete (b : Body) : M Response :=
  try_catch
    (let id := body_id b in
     let userId := body_userId b in
     _ <- Address_destroy_id id ;;
     _ <- log ("Endereço " ++ Js.template id ++ " excluído")%string ;;
     ret (Redirect (if Js.truthy userId
                    then ("/users/edit/" ++ Js.template userId)%string else "/")))
    (fun e =>
       _ <- log ("Erro ao excluir endereço: " ++ e)%string ;;
       ret (Redirect "/")).

(** [GET /users/create] *)
Definition get_users_create : M Response := ret (Render "adduser" no_data).

(** The fallback middleware for unmatched routes:
    [res.status(404).render('home', ...)]; the status is the first
    component. *)
Definition not_found : M (Z * Response) :=
  ret (404, Render "home"
              (mkRenderData (Some []) None None None None
                 (Some "Página não encontrada") None None)).

(** The routes the application registers, with their parameters. *)
Inductive Route :=
| GetRoot (qr : Query)
| GetUsersCreate
| PostUsersCreate (b : Body)
| GetUsersId (id : string)
| GetUsersEdit (id : string)
| PostUsersUpdate (b : Body)
| PostUsersDelete (id : string)
| PostAddressCreate (b : Body)
| PostAddressDelete (b : Body)
| NotFound.

Definition dispatch (r : Route) : M Response :=
  match r with
  | GetRoot qr => get_root qr
  | GetUsersCreate => get_users_create
  | PostUsersCreate b => post_users_create b
  | GetUsersId id => get_users_id id
  | GetUsersEdit id => get_users_edit id
  | PostUsersUpdate b => post_users_update b
  | PostUsersDelete id => post_users_delete id
  | PostAddressCreate b => post_address_create b
  | PostAddressDelete b => post_address_delete b
  | NotFound => s <- not_found ;; ret (snd s)
  end.

(** A sequence of requests handled one after the other. *)
Fixpoint run_routes (rs : list Route) : M (list Response) :=
  match rs with
  | [] => ret []
  | r :: rest => x <- dispatch r ;; xs <- run_routes rest ;; ret (x :: xs)
  end.

End Routes.

(** ** The Handlebars helpers *)
Module Helpers.

(** [range: (from, to) => Array.from({ length: to - from + 1 }, (_, i) => i + from)]
    for integer [from] and [to]: [Array.from] clamps a negative length to
    0 and throws a [RangeError] for a length beyond 2^32 - 1. *)
Definition range (from to : Z) : Result (list Z) :=
  let len := to - from + 1 in
  if 2 ^ 32 - 1 <? len then Err "RangeError: Invalid array length"
  else Ok (map (fun i => Z.of_nat i + from) (seq 0 (Z.to_nat len))).

End Helpers.

(** ** Properties *)

(** A database served by MySQL. *)
Definition mysql_db (us : list User) (as_ : list Address) (n : nat) (fs : list bool)
    (l : list string) : DB :=
  mkDB us as_ n fs l Mysql.backend.

(** The database after one storage call consumed its fault entry. *)
Definition pop_fault (db : DB) : DB :=
  match db_faults db with
  | [] => db
  | _ :: fs => set_faults fs db
  end.

Lemma storage_ok {A} (op : DB -> Result A * DB) (db : DB) :
  next_fault db = false -> storage op db = op (pop_fault db).
Proof.
  unfold storage, next_fault, pop_fault.
  destruct (db_faults db) as [|[] fs]; easy.
Qed.

Lemma storage_fail {A} (op : DB -> Result A * DB) (db : DB) :
  next_fault db = true -> storage op db = (Err "storage failure", pop_fault db).
Proof.
  unfold storage, next_fault, pop_fault.
  destruct (db_faults db) as [|[] fs]; easy.
Qed.

Lemma pop_fault_users db : db_users (pop_fault db) = db_users db.
Proof. unfold pop_fault; destruct (db_faults db); reflexivity. Qed.

Lemma pop_fault_addresses db : db_addresses (pop_fault db) = db_addresses db.
Proof. unfold pop_fault; destruct (db_faults db); reflexivity. Qed.

Lemma log_users msg db : db_users (snd (log msg db)) = db_users db.
Proof. reflexivity. Qed.

Lemma log_addresses msg db : db_addresses (snd (log msg db)) = db_addresses db.
Proof. reflexivity. Qed.

Lemma filter_out_none {X} (f : X -> bool) (l : list X) :
  filter f (filter (fun x => negb (f x)) l) = [].
Proof.
  induction l as [|x l IH]; simpl; [reflexivity|].
  destruct (f x) eqn:E; simpl; [exact IH|]. rewrite E. exact IH.
Qed.

Import Sequelize Routes.

Lemma pop_fault_backend db : db_backend (pop_fault db) = db_backend db.
Proof. unfold pop_fault; destruct (db_faults db); reflexivity. Qed.

Lemma In_filter_negb {X} (f : X -> bool) (l : list X) (x : X) :
  In x (filter (fun y => negb (f y)) l) -> f x = false.
Proof. rewrite filter_In. intros [_ H]. destruct (f x); [discriminate | reflexivity]. Qed.

(** C1. Deleting a user first deletes every address whose [userId] matches
    the id, then the user rows that match it, where "matches" is the
    backend's comparison of the integer key with the id string (so "01"
    matches user 1 in MySQL). When the address delete is carried out, no
    address matching the id is left afterwards, whatever number of addresses
    the user had; when it fails or the backend refuses the id, nothing is
    deleted. The response is always a redirect to the listing root. *)
Theorem users_delete_cascade (db : DB) (id : string) :
  let bk := db_backend db in
  let '(r, db') := post_users_delete id db in
  r = Ok (Redirect "/") /\
  (next_fault db = false -> key_accepted bk id = true ->
     (forall a, In a (db_addresses db') -> key_eq bk (address_userId a) id = false) /\
     db_addresses db' = filter (fun a => negb (key_eq bk (address_userId a) id)) (db_addresses db) /\
     db_users db' = (if next_fault (pop_fault db) then db_users db
                     else filter (fun u => negb (key_eq bk (user_id u) id)) (db_users db))) /\
  (next_fault db = true \/ key_accepted bk id = false ->
     db_users db' = db_users db /\ db_addresses db' = db_addresses db).
Proof.
  destruct db as [us as_ n fs l bk].
  unfold post_users_delete, try_catch, bind, ret, log, Address_destroy_userId,
    User_destroy, storage, where_key.
  cbv zeta. cbn [db_backend db_faults].
  destruct fs as [|[] [|[] fs]]; cbn; destruct (key_accepted bk id) eqn:Ha; cbn;
    repeat match goal with |- context [if ?c then _ else _] => destruct c end;
    cbn; repeat split; intros; try discriminate;
    try (eapply (In_filter_negb (fun a => key_eq bk (address_userId a) id)); eassumption);
    try (match goal with H : _ \/ _ |- _ => destruct H as [H|H]; discriminate end).
Qed.

(** User 1 owns three addresses; deleting "01" leaves none of them and
    keeps the address of user 2. *)
Lemma users_delete_cascade_witness :
  let db := mysql_db [mkUser 1 "Ana" None true 1; mkUser 2 "Bia" None false 2]
                 [mkAddress 3 "Rua Azul" None "Recife" 1 3;
                  mkAddress 4 "Rua Verde" None "Recife" 2 4;
                  mkAddress 5 "Rua Lima" None "Olinda" 1 5;
                  mkAddress 6 "Rua Sol" None "Natal" 1 6] 7 [] [] in
  let bk := db_backend db in
  (next_fault db = false /\ key_accepted bk "01" = true /\
   length (filter (fun a => key_eq bk (address_userId a) "01") (db_addresses db)) = 3%nat) /\
  let '(r, db') := post_users_delete "01" db in
  r = Ok (Redirect "/") /\
  (next_fault db = false -> key_accepted bk "01" = true ->
     (forall a, In a (db_addresses db') -> key_eq bk (address_userId a) "01" = false) /\
     db_addresses db' = filter (fun a => negb (key_eq bk (address_userId a) "01")) (db_addresses db) /\
     db_users db' = (if next_fault (pop_fault db) then db_users db
                     else filter (fun u => negb (key_eq bk (user_id u) "01")) (db_users db))) /\
  (next_fault db = true \/ key_accepted bk "01" = false ->
     db_users db' = db_users db /\ db_addresses db' = db_addresses db).
Proof.
  cbv zeta. split; [split; [reflexivity | split; vm_compute; reflexivity]|].
  lazymatch goal with |- context [post_users_delete ?i ?d] =>
    pose proof (users_delete_cascade d i) as HH; cbv zeta in HH; exact HH end.
Defined.

(** [Math.ceil(a / b)] for a positive divisor is the least [t] with
    [a <= t * b]. *)
Lemma ceil_div_spec (a b : Z) :
  0 < b -> (Js.ceil_div a b - 1) * b < a <= Js.ceil_div a b * b.
Proof.
  intros Hb. unfold Js.ceil_div.
  pose proof (Z.div_mod (- a) b ltac:(lia)) as Hd.
  pose proof (Z.mod_pos_bound (- a) b Hb) as Hm.
  nia.
Qed.

Lemma length_firstn_le {X} (n : nat) (l : list X) : (length (firstn n l) <= n)%nat.
Proof. rewrite length_firstn. lia. Qed.

(** C2. For page and limit values of at least 1 (and, for JavaScript's
    numbers to be exact, page, limit, offset and the number of users at most
    2^53), the listing fetches the users passing the filter, ordered by
    [createdAt] descending, from offset [(page - 1) * limit]; it returns at
    most [limit] of them and reports [totalPages] as the ceiling of
    [count / limit]. *)
Theorem listing_pagination (qr : Query) (db : DB)
    (Hf : next_fault db = false)
    (Hp : 1 <= page_param qr <= 2 ^ 53) (Hl : 1 <= limit_param qr <= 2 ^ 53)
    (Ho : (page_param qr - 1) * limit_param qr <= 2 ^ 53)
    (Hc : Z.of_nat (length (db_users db)) <= 2 ^ 53) :
  let matched := filter (user_matches (db_backend db) (listing_where qr)) (db_users db) in
  let offset := (page_param qr - 1) * limit_param qr in
  exists rows totalPages,
    fst (get_root qr db) =
      Ok (Render "home" (mkRenderData (Some rows) (Some (page_param qr)) (Some totalPages)
                           (query_q qr) (query_newsletter qr) None None None)) /\
    rows = firstn (Z.to_nat (limit_param qr))
             (skipn (Z.to_nat offset) (order_createdAt_desc matched)) /\
    Z.of_nat (length rows) <= limit_param qr /\
    (totalPages - 1) * limit_param qr < Z.of_nat (length matched)
      <= totalPages * limit_param qr.
Proof.
  cbv zeta.
  unfold get_root, try_catch, bind, User_findAndCountAll.
  rewrite (storage_ok _ _ Hf).
  assert (E1 : (limit_param qr <? 0) = false) by (apply Z.ltb_ge; lia).
  assert (E2 : ((page_param qr - 1) * limit_param qr <? 0) = false)
    by (apply Z.ltb_ge; nia).
  assert (E3 : (max_limit <? limit_param qr) = false)
    by (apply Z.ltb_ge; unfold max_limit; lia).
  assert (E4 : (max_limit <? (page_param qr - 1) * limit_param qr) = false)
    by (apply Z.ltb_ge; unfold max_limit; lia).
  rewrite E1, E2, E3, E4, pop_fault_users, pop_fault_backend. cbn [orb fst].
  eexists _, _. split; [reflexivity|]. split; [reflexivity|]. split.
  - pose proof (length_firstn_le (Z.to_nat (limit_param qr))
                  (skipn (Z.to_nat ((page_param qr - 1) * limit_param qr))
                     (order_createdAt_desc
                        (filter (user_matches (db_backend db) (listing_where qr)) (db_users db))))).
    lia.
  - apply ceil_div_spec; lia.
Qed.

(** The listing at page 2 of size 2 over three users, searching "silva":
    MySQL's [LIKE] ignores case, so both Silvas match. *)
Lemma listing_pagination_witness :
  let db := mysql_db [mkUser 1 "Ana Silva" None true 1; mkUser 2 "Bia" None false 2;
                  mkUser 3 "Caio Silva" None true 3; mkUser 4 "Davi Silva" None true 4] [] 5 [] [] in
  let qr := mkQuery (Some "2") (Some "2") (Some "silva") None in
  (next_fault db = false /\ 1 <= page_param qr <= 2 ^ 53 /\ 1 <= limit_param qr <= 2 ^ 53 /\
   (page_param qr - 1) * limit_param qr <= 2 ^ 53 /\
   Z.of_nat (length (db_users db)) <= 2 ^ 53) /\
  fst (get_root qr db) =
    Ok (Render "home" (mkRenderData (Some [mkUser 1 "Ana Silva" None true 1]) (Some 2) (Some 2)
                         (Some "silva") None None None None)) /\
  exists rows totalPages,
    fst (get_root qr db) =
      Ok (Render "home" (mkRenderData (Some rows) (Some (page_param qr)) (Some totalPages)
                           (query_q qr) (query_newsletter qr) None None None)) /\
    rows = firstn (Z.to_nat (limit_param qr))
             (skipn (Z.to_nat ((page_param qr - 1) * limit_param qr))
                (order_createdAt_desc
                   (filter (user_matches (db_backend db) (listing_where qr)) (db_users db)))) /\
    Z.of_nat (length rows) <= limit_param qr /\
    (totalPages - 1) * limit_param qr
      < Z.of_nat (length (filter (user_matches (db_backend db) (listing_where qr)) (db_users db)))
      <= totalPages * limit_param qr.
Proof.
  cbv zeta. split; [repeat split; vm_compute; first [reflexivity | discriminate]|].
  split; [vm_compute; reflexivity|].
  apply listing_pagination; vm_compute; first [reflexivity | discriminate | split; discriminate].
Defined.

(** C10. A page that parses to [NaN] or [0] becomes 1, a limit that parses
    to [NaN] or [0] becomes 3, so the limit given to the query and used as
    the divisor of [Math.ceil(count / limit)] is never 0. *)
Theorem listing_defaults_nonzero_limit (qr : Query) :
  ((Js.parseInt (query_page qr) = None \/ Js.parseInt (query_page qr) = Some 0) ->
     page_param qr = 1) /\
  ((Js.parseInt (query_limit qr) = None \/ Js.parseInt (query_limit qr) = Some 0) ->
     limit_param qr = 3) /\
  limit_param qr <> 0.
Proof.
  unfold page_param, limit_param, Js.or_number.
  split; [|split].
  - intros [-> | ->]; reflexivity.
  - intros [-> | ->]; reflexivity.
  - destruct (Js.parseInt (query_limit qr)) as [z|]; [|discriminate].
    destruct (Z.eqb_spec z 0); [discriminate | assumption].
Qed.

Lemma listing_defaults_nonzero_limit_witness :
  let qr := mkQuery (Some "abc") (Some "0") None None in
  ((Js.parseInt (query_page qr) = None \/ Js.parseInt (query_page qr) = Some 0) /\
   (Js.parseInt (query_limit qr) = None \/ Js.parseInt (query_limit qr) = Some 0)) /\
  page_param qr = 1 /\ limit_param qr = 3 /\ limit_param qr <> 0.
Proof.
  cbv zeta. split; [split; [left | right]; reflexivity|].
  pose proof (listing_defaults_nonzero_limit (mkQuery (Some "abc") (Some "0") None None))
    as [Hp [Hl Hz]].
  split; [apply Hp; left; reflexivity|].
  split; [apply Hl; right; reflexivity | exact Hz].
Defined.

(** C9. When the listing query fails, the error is logged and caught: the
    handler renders [home] with an empty user list and the generic error
    message, and the failure does not reach the caller. *)
Theorem listing_storage_failure (qr : Query) (db db1 : DB) (e : string)
    (Hq : User_findAndCountAll (listing_where qr) (limit_param qr)
            ((page_param qr - 1) * limit_param qr) db = (Err e, db1)) :
  get_root qr db =
    (Ok (Render "home" (mkRenderData (Some []) None None None None
                          (Some "Erro ao carregar usuários") None None)),
     set_log (db_log db1 ++ [("Erro ao carregar usuários: " ++ e)%string]) db1).
Proof.
  unfold get_root, try_catch, bind. cbv zeta. rewrite Hq. reflexivity.
Qed.

Lemma listing_storage_failure_witness :
  let qr := mkQuery None None None None in
  let db := mysql_db [] [] 1 [true] [] in
  User_findAndCountAll (listing_where qr) (limit_param qr)
    ((page_param qr - 1) * limit_param qr) db
    = (Err "storage failure", mysql_db [] [] 1 [] []) /\
  get_root qr db =
    (Ok (Render "home" (mkRenderData (Some []) None None None None
                          (Some "Erro ao carregar usuários") None None)),
     set_log (db_log (mysql_db [] [] 1 [] []) ++ ["Erro ao carregar usuários: storage failure"])
       (mysql_db [] [] 1 [] [])).
Proof.
  cbv zeta. split; [reflexivity|].
  apply listing_storage_failure. reflexivity.
Defined.

Lemma find_none {X} (f : X -> bool) (l : list X) :
  (forall x, In x l -> f x = false) -> find f l = None.
Proof.
  induction l as [|x l IH]; intros H; cbn; [reflexivity|].
  rewrite (H x (or_introl eq_refl)). apply IH. intros y Hy. apply H. right. exact Hy.
Qed.

(** C6. For an id with no user (no stored user's key equals the id as the
    database compares them), or when the lookup fails, the detail view
    renders [userview] with an error message while the edit view redirects
    to the listing root. *)
Theorem user_lookup_fallbacks (db : DB) (id : string)
    (H : next_fault db = true \/
         forall u, In u (db_users db) -> key_eq (db_backend db) (user_id u) id = false) :
  (exists msg, fst (get_users_id id db) = Ok (Render "userview" (with_error msg))) /\
  fst (get_users_edit id db) = Ok (Redirect "/").
Proof.
  unfold get_users_id, get_users_edit, try_catch, bind, User_findByPk.
  destruct (next_fault db) eqn:Hf.
  - rewrite !(storage_fail _ _ Hf). split; [eexists|]; reflexivity.
  - destruct H as [H|H]; [discriminate|].
    rewrite !(storage_ok _ _ Hf).
    assert (Hu : find_user id (pop_fault db) = None).
    { unfold find_user. rewrite pop_fault_users, pop_fault_backend. apply find_none. exact H. }
    rewrite Hu. split; [eexists|]; reflexivity.
Qed.

Lemma user_lookup_fallbacks_witness :
  let db := mysql_db [mkUser 1 "Ana" None true 1] [] 2 [] [] in
  (next_fault db = true \/
   forall u, In u (db_users db) -> key_eq (db_backend db) (user_id u) "7" = false) /\
  (exists msg, fst (get_users_id "7" db) = Ok (Render "userview" (with_error msg))) /\
  fst (get_users_edit "7" db) = Ok (Redirect "/").
Proof.
  cbv zeta.
  assert (H : forall u, In u (db_users (mysql_db [mkUser 1 "Ana" None true 1] [] 2 [] [])) ->
              key_eq (db_backend (mysql_db [mkUser 1 "Ana" None true 1] [] 2 [] [])) (user_id u) "7"
                = false).
  { intros u [<-|[]]. vm_compute. reflexivity. }
  split; [right; exact H|].
  apply user_lookup_fallbacks. right. exact H.
Defined.

Lemma name_invalid_spec (v : option string) :
  name_invalid v = true <->
  (v = None \/ exists s, v = Some s /\ (String.length (Js.trim s) < 2)%nat).
Proof.
  unfold name_invalid, Js.truthy, Js.template.
  destruct v as [s|]; [|split; [left; reflexivity | reflexivity]].
  destruct (String.eqb_spec s "") as [->|Hne]; cbn.
  - split; [intros _; right; exists ""; split; [reflexivity | cbv; lia] | reflexivity].
  - rewrite Nat.leb_le. split.
    + intros H. right. exists s. split; [reflexivity | lia].
    + intros [H|[s' [Hs H]]]; [discriminate|]. injection Hs as <-. lia.
Qed.

Lemma name_valid (s : string) :
  (2 <= String.length (Js.trim s))%nat -> name_invalid (Some s) = false.
Proof.
  intros H. destruct (name_invalid (Some s)) eqn:E; [|reflexivity].
  apply name_invalid_spec in E as [E|[s' [Es E]]]; [discriminate|].
  injection Es as <-. lia.
Qed.

(** C4. A create request whose name is absent or shorter than 2
    characters after trimming persists nothing and re-renders the create
    form with the validation message and the submitted, untrimmed name,
    occupation and newsletter. *)
Theorem users_create_rejects (b : Body) (db : DB)
    (H : body_name b = None \/
         exists s, body_name b = Some s /\ (String.length (Js.trim s) < 2)%nat) :
  post_users_create b db =
    (Ok (Render "adduser"
           (mkRenderData None None None None None
              (Some "Nome deve ter pelo menos 2 caracteres")
              (Some (mkBody None (body_name b) (body_occupation b) (body_newsletter b)
                       None None None None))
              None)),
     db).
Proof.
  apply name_invalid_spec in H.
  unfold post_users_create, try_catch. cbv zeta. rewrite H. reflexivity.
Qed.

Lemma users_create_rejects_witness :
  let b := mkBody None (Some "A") (Some " dev ") (Some "on") None None None None in
  let db := mysql_db [] [] 1 [] [] in
  (body_name b = None \/
   exists s, body_name b = Some s /\ (String.length (Js.trim s) < 2)%nat) /\
  post_users_create b db =
    (Ok (Render "adduser"
           (mkRenderData None None None None None
              (Some "Nome deve ter pelo menos 2 caracteres")
              (Some (mkBody None (Some "A") (Some " dev ") (Some "on")
                       None None None None))
              None)),
     db).
Proof.
  cbv zeta.
  assert (H : body_name (mkBody None (Some "A") (Some " dev ") (Some "on") None None None None) = None \/
              exists s, body_name (mkBody None (Some "A") (Some " dev ") (Some "on") None None None None) = Some s
                        /\ (String.length (Js.trim s) < 2)%nat)
    by (right; exists "A"; split; [reflexivity | cbv; lia]).
  split; [exact H|].
  exact (users_create_rejects _ (mysql_db [] [] 1 [] []) H).
Defined.

(** The occupation as C3 words it: the trimmed value, [null] only when the
    field is absent. *)
Definition claimed_occupation (v : option string) : option string :=
  option_map Js.trim v.

(** C3, counterexample: a submitted empty occupation is present, but the
    persisted record has occupation [null], not its trimmed value [""]. *)
Lemma users_create_empty_occupation_counterexample :
  let b := mkBody None (Some "Bob") (Some "") None None None None None in
  let db := mysql_db [] [] 1 [] [] in
  ~ (exists u, In u (db_users (snd (post_users_create b db))) /\
               user_occupation u = claimed_occupation (body_occupation b)).
Proof.
  vm_compute. intros [u [[<-|[]] H]]. discriminate.
Qed.

(** C3, amended. A create request whose name trims to at least 2
    characters persists one new user with the trimmed name, the trimmed
    occupation when it is a non-empty string and [null] when it is absent or
    empty, newsletter true exactly when the submitted value is "on", and
    redirects to the listing root. *)
Theorem users_create_persists (b : Body) (db : DB) (s : string)
    (Hf : next_fault db = false) (Hn : body_name b = Some s)
    (Hl : (2 <= String.length (Js.trim s))%nat) :
  let '(r, db') := post_users_create b db in
  r = Ok (Redirect "/") /\
  exists u, db_users db' = db_users db ++ [u] /\
    user_name u = Js.trim s /\
    user_occupation u = match body_occupation b with
                        | Some o => if String.eqb o "" then None else Some (Js.trim o)
                        | None => None
                        end /\
    (user_newsletter u = true <-> body_newsletter b = Some "on").
Proof.
  unfold post_users_create, try_catch, bind. cbv zeta.
  rewrite Hn, (name_valid s Hl). unfold User_create.
  rewrite (storage_ok _ _ Hf). cbn. split; [reflexivity|].
  eexists. split; [rewrite pop_fault_users; reflexivity|].
  split; [reflexivity|]. split.
  - unfold trim_or_null, Js.truthy, Js.template.
    destruct (body_occupation b) as [o|]; [|reflexivity].
    destruct (String.eqb o ""); reflexivity.
  - unfold Js.strict_eq. destruct (body_newsletter b) as [v|].
    + destruct (String.eqb_spec v "on") as [->|Hne].
      * split; reflexivity.
      * split; [discriminate | intros [= E]; contradiction].
    + split; discriminate.
Qed.

(** The spec's example: name "  Bob  " with no occupation and no
    newsletter persists "Bob", [null] and [false]. *)
Lemma users_create_persists_witness :
  let b := mkBody None (Some "  Bob  ") None None None None None None in
  let db := mysql_db [] [] 1 [] [] in
  (next_fault db = false /\ body_name b = Some "  Bob  " /\
   (2 <= String.length (Js.trim "  Bob  "))%nat) /\
  let '(r, db') := post_users_create b db in
  r = Ok (Redirect "/") /\
  exists u, db_users db' = db_users db ++ [u] /\
    user_name u = Js.trim "  Bob  " /\
    user_occupation u = match body_occupation b with
                        | Some o => if String.eqb o "" then None else Some (Js.trim o)
                        | None => None
                        end /\
    (user_newsletter u = true <-> body_newsletter b = Some "on").
Proof.
  cbv zeta. split; [split; [reflexivity | split; [reflexivity | cbv; lia]]|].
  apply users_create_persists; [reflexivity | reflexivity | cbv; lia].
Defined.

Example users_create_bob :
  db_users (snd (post_users_create (mkBody None (Some "  Bob  ") None None None None None None)
                   (mysql_db [] [] 1 [] [])))
  = [mkUser 1 "Bob" None false 1].
Proof. reflexivity. Qed.

(** C5, counterexample: an update request with a valid name but no [id]
    makes Sequelize refuse the [where] clause; the error is caught and the
    response redirects to "/users/edit/", not to the listing root. *)
Lemma users_update_absent_id_counterexample :
  fst (post_users_update (mkBody None (Some "Eva") None None None None None None)
         (mysql_db [mkUser 5 "Eva" None false 5] [] 6 [] []))
  <> Ok (Redirect "/").
Proof. vm_compute. discriminate. Qed.

(** C5, amended. An update request whose name is missing or shorter than 2
    characters after trimming changes nothing and redirects, with no
    message, to that user's edit page. With a valid name, when the storage
    answers and the id is one the database accepts as a key, the new values
    are written to the rows whose id equals the submitted id (as the
    database compares them), and only to them, and the response redirects to
    the listing root whether or not a row matched; when the id is absent or
    refused, or the storage fails, nothing changes and the response
    redirects to the edit page of the submitted id (or "/users/edit/"). *)
Theorem users_update_outcomes (b : Body) (db : DB) :
  ((body_name b = None \/
    exists s, body_name b = Some s /\ (String.length (Js.trim s) < 2)%nat) ->
   post_users_update b db =
     (Ok (Redirect ("/users/edit/" ++ Js.template (body_id b))%string), db)) /\
  (forall s, body_name b = Some s -> (2 <= String.length (Js.trim s))%nat ->
     (body_id b = None \/ next_fault db = true \/
      exists i, body_id b = Some i /\ key_accepted (db_backend db) i = false) ->
     let '(r, db') := post_users_update b db in
     r = Ok (Redirect ("/users/edit/" ++ Js.or_string (body_id b) "")%string) /\
     db_users db' = db_users db /\ db_addresses db' = db_addresses db) /\
  (forall s i, body_name b = Some s -> (2 <= String.length (Js.trim s))%nat ->
     body_id b = Some i -> next_fault db = false ->
     key_accepted (db_backend db) i = true ->
     let '(r, db') := post_users_update b db in
     r = Ok (Redirect "/") /\
     db_users db' =
       map (fun u => if key_eq (db_backend db) (user_id u) i
                     then mkUser (user_id u) (Js.trim s) (trim_or_null (body_occupation b))
                            (Js.strict_eq (body_newsletter b) "on") (user_createdAt u)
                     else u) (db_users db) /\
     db_addresses db' = db_addresses db).
Proof.
  split; [|split].
  - intros H. apply name_invalid_spec in H.
    unfold post_users_update, try_catch. cbv zeta. rewrite H. reflexivity.
  - intros s Hn Hl Hc.
    unfold post_users_update, try_catch, bind. cbv zeta.
    rewrite Hn, (name_valid s Hl). unfold User_update, storage, where_key.
    destruct db as [us as_ n fs l bk]; cbn [db_faults db_backend next_fault] in *.
    destruct (body_id b) as [i|].
    + destruct Hc as [Hc|[Hc|[i' [[= <-] Hc]]]]; [discriminate| |].
      * destruct fs as [|[] fs]; try discriminate. cbn. repeat split.
      * destruct fs as [|[] fs]; cbn; rewrite ?Hc; cbn; repeat split.
    + destruct fs as [|[] fs]; cbn; repeat split.
  - intros s i Hn Hl Hi Hf Ha.
    unfold post_users_update, try_catch, bind. cbv zeta.
    rewrite Hn, (name_valid s Hl). unfold User_update.
    rewrite (storage_ok _ _ Hf), Hi. unfold where_key.
    rewrite pop_fault_backend, Ha. cbn.
    match goal with |- context [if ?c then _ else _] => destruct c end; cbn;
      rewrite ?pop_fault_users, ?pop_fault_addresses, ?pop_fault_backend; repeat split.
Qed.

(** User 1 is updated through the id "01", which MySQL compares as the
    number 1; an empty name is refused, and an absent id leaves the table as
    it was. *)
Lemma users_update_outcomes_witness :
  let db := mysql_db [mkUser 1 "Eva" None false 1; mkUser 2 "Rui" None false 2] [] 3 [] [] in
  let bad := mkBody (Some "01") (Some "") None None None None None None in
  let noid := mkBody None (Some "Eva") None None None None None None in
  let good := mkBody (Some "01") (Some " Eva Maria ") (Some "dev") (Some "on")
                None None None None in
  ((body_name bad = None \/
    exists s, body_name bad = Some s /\ (String.length (Js.trim s) < 2)%nat) /\
   post_users_update bad db = (Ok (Redirect "/users/edit/01"), db)) /\
  ((body_name noid = Some "Eva" /\ (2 <= String.length (Js.trim "Eva"))%nat /\
    body_id noid = None) /\
   let '(r, db') := post_users_update noid db in
   r = Ok (Redirect "/users/edit/") /\
   db_users db' = db_users db /\ db_addresses db' = db_addresses db) /\
  (body_name good = Some " Eva Maria " /\ (2 <= String.length (Js.trim " Eva Maria "))%nat /\
   body_id good = Some "01" /\ next_fault db = false /\
   key_accepted (db_backend db) "01" = true) /\
  (db_users (snd (post_users_update good db)) =
     [mkUser 1 "Eva Maria" (Some "dev") true 1; mkUser 2 "Rui" None false 2]) /\
  let '(r, db') := post_users_update good db in
  r = Ok (Redirect "/") /\
  db_users db' =
    map (fun u => if key_eq (db_backend db) (user_id u) "01"
                  then mkUser (user_id u) (Js.trim " Eva Maria ")
                         (trim_or_null (body_occupation good))
                         (Js.strict_eq (body_newsletter good) "on") (user_createdAt u)
                  else u) (db_users db) /\
  db_addresses db' = db_addresses db.
Proof.
  cbv zeta.
  pose proof (users_update_outcomes (mkBody (Some "01") (Some "") None None None None None None)
                (mysql_db [mkUser 1 "Eva" None false 1; mkUser 2 "Rui" None false 2] [] 3 [] []))
    as [Hbad _].
  pose proof (users_update_outcomes (mkBody None (Some "Eva") None None None None None None)
                (mysql_db [mkUser 1 "Eva" None false 1; mkUser 2 "Rui" None false 2] [] 3 [] []))
    as [_ [Hnoid _]].
  pose proof (users_update_outcomes
                (mkBody (Some "01") (Some " Eva Maria ") (Some "dev") (Some "on")
                   None None None None)
                (mysql_db [mkUser 1 "Eva" None false 1; mkUser 2 "Rui" None false 2] [] 3 [] []))
    as [_ [_ Hgood]].
  assert (Hn : body_name (mkBody (Some "01") (Some "") None None None None None None) = None \/
               exists s, body_name (mkBody (Some "01") (Some "") None None None None None None)
                         = Some s /\ (String.length (Js.trim s) < 2)%nat)
    by (right; exists ""; split; [reflexivity | cbv; lia]).
  split; [split; [exact Hn | exact (Hbad Hn)]|].
  split; [split; [split; [reflexivity | split; [cbv; lia | reflexivity]] |
                  exact (Hnoid "Eva" eq_refl ltac:(cbv; lia) (or_introl eq_refl))]|].
  split; [split; [reflexivity | split; [cbv; lia | split; [reflexivity | split;
            [reflexivity | vm_compute; reflexivity]]]]|].
  split; [vm_compute; reflexivity|].
  apply Hgood; [reflexivity | cbv; lia | reflexivity | reflexivity | vm_compute; reflexivity].
Defined.

(** [!v || v.trim().length < n] *)
Lemma short_invalid_spec (n : nat) (v : option string) :
  (1 <= n)%nat ->
  negb (Js.truthy v) || (String.length (Js.trim (Js.template v)) <? n)%nat = true <->
  (v = None \/ exists s, v = Some s /\ (String.length (Js.trim s) < n)%nat).
Proof.
  intros Hn. unfold Js.truthy, Js.template.
  destruct v as [s|]; [|split; [left; reflexivity | reflexivity]].
  destruct (String.eqb_spec s "") as [->|Hne]; cbn [negb orb].
  - split; [intros _; right; exists ""; split; [reflexivity | cbv; lia] | intros _; reflexivity].
  - rewrite ?Nat.ltb_lt, ?Nat.leb_le. split.
    + intros H. right. exists s. split; [reflexivity | lia].
    + intros [H|[s' [Hs H]]]; [discriminate|]. injection Hs as <-. lia.
Qed.

Lemma short_valid (n : nat) (s : string) :
  (1 <= n)%nat -> (n <= String.length (Js.trim s))%nat ->
  negb (Js.truthy (Some s)) || (String.length (Js.trim (Js.template (Some s))) <? n)%nat = false.
Proof.
  intros H1 H. destruct (_ || _)%bool eqn:E; [|reflexivity].
  apply (short_invalid_spec n) in E as [E|[s' [Es E]]]; [discriminate | | exact H1].
  injection Es as <-. lia.
Qed.

Lemma existsb_none {X} (f : X -> bool) (l : list X) :
  (forall x, In x l -> f x = false) -> existsb f l = false.
Proof.
  intros H. apply not_true_iff_false. intros E.
  apply existsb_exists in E as [x [Hx E]]. rewrite (H x Hx) in E. discriminate.
Qed.

(** C7. An address create request whose street is absent or trims to
    fewer than 5 characters, or whose city is absent or trims to fewer than
    2, persists nothing and redirects, with no message, to the owning
    user's edit page. Otherwise, when the storage answers and the submitted
    [userId] converts to the key of a stored user, one address is added with
    the trimmed street, the trimmed-or-null number, the trimmed city and
    that [userId], and the response redirects to that user's edit page.
    When [userId] is absent, does not convert to an integer, or names no
    stored user (the foreign key), or the storage fails, nothing is
    persisted and the response still redirects to the edit page of the
    submitted [userId]. *)
Theorem address_create_outcomes (b : Body) (db : DB) :
  ((body_street b = None \/
    (exists st, body_street b = Some st /\ (String.length (Js.trim st) < 5)%nat) \/
    body_city b = None \/
    (exists ct, body_city b = Some ct /\ (String.length (Js.trim ct) < 2)%nat)) ->
   post_address_create b db =
     (Ok (Redirect ("/users/edit/" ++ Js.template (body_userId b))%string), db)) /\
  (forall st ct u k,
     body_street b = Some st -> (5 <= String.length (Js.trim st))%nat ->
     body_city b = Some ct -> (2 <= String.length (Js.trim ct))%nat ->
     body_userId b = Some u -> key_of (db_backend db) u = Some k ->
     (exists v, In v (db_users db) /\ user_id v = k) ->
     next_fault db = false ->
     let '(r, db') := post_address_create b db in
     r = Ok (Redirect ("/users/edit/" ++ u)%string) /\
     db_users db' = db_users db /\
     exists a, db_addresses db' = db_addresses db ++ [a] /\
       address_street a = Js.trim st /\
       address_number a = trim_or_null (body_number b) /\
       address_city a = Js.trim ct /\
       address_userId a = k) /\
  (forall st ct,
     body_street b = Some st -> (5 <= String.length (Js.trim st))%nat ->
     body_city b = Some ct -> (2 <= String.length (Js.trim ct))%nat ->
     (body_userId b = None \/ next_fault db = true \/
      exists u, body_userId b = Some u /\
        (key_of (db_backend db) u = None \/
         exists k, key_of (db_backend db) u = Some k /\
           forall v, In v (db_users db) -> user_id v <> k)) ->
     let '(r, db') := post_address_create b db in
     r = Ok (Redirect ("/users/edit/" ++ Js.or_string (body_userId b) "")%string) /\
     db_users db' = db_users db /\ db_addresses db' = db_addresses db).
Proof.
  split; [|split].
  - intros H.
    assert (Hi : address_invalid (body_street b) (body_city b) = true).
    { unfold address_invalid. rewrite <- orb_assoc. apply orb_true_iff.
      destruct H as [H|[H|H]].
      - left. apply short_invalid_spec; [lia | left; exact H].
      - left. apply short_invalid_spec; [lia | right; exact H].
      - right. apply short_invalid_spec; [lia | exact H]. }
    unfold post_address_create, try_catch. cbv zeta. rewrite Hi. reflexivity.
  - intros st ct u k Hs Hls Hc Hlc Hu Hk [v [Hv Hvk]] Hf.
    assert (Hi : address_invalid (body_street b) (body_city b) = false).
    { unfold address_invalid. rewrite Hs, Hc, <- orb_assoc.
      rewrite (short_valid 5 st), (short_valid 2 ct); auto; lia. }
    assert (He : existsb (fun w => Z.eqb (user_id w) k) (db_users db) = true).
    { apply existsb_exists. exists v. split; [exact Hv | apply Z.eqb_eq; exact Hvk]. }
    unfold post_address_create, try_catch, bind. cbv zeta.
    rewrite Hi. unfold Address_create.
    rewrite (storage_ok _ _ Hf), Hu, pop_fault_backend, Hk, pop_fault_users, He. cbn.
    split; [reflexivity|]. split; [rewrite pop_fault_users; reflexivity|].
    eexists. rewrite pop_fault_addresses, Hs, Hc.
    repeat split.
  - intros st ct Hs Hls Hc Hlc Hr.
    assert (Hi : address_invalid (body_street b) (body_city b) = false).
    { unfold address_invalid. rewrite Hs, Hc, <- orb_assoc.
      rewrite (short_valid 5 st), (short_valid 2 ct); auto; lia. }
    unfold post_address_create, try_catch, bind. cbv zeta.
    rewrite Hi. unfold Address_create, storage.
    destruct db as [us as_ n fs l bk]; cbn [db_faults db_backend db_users next_fault] in *.
    destruct Hr as [Hr|[Hr|[u [Hu Hr]]]].
    + rewrite Hr. destruct fs as [|[] fs]; cbn; repeat split.
    + destruct fs as [|[] fs]; try discriminate. cbn. repeat split.
    + rewrite Hu.
      destruct Hr as [Hr|[k [Hk Hn]]].
      * destruct fs as [|[] fs]; cbn; rewrite ?Hr; cbn; repeat split.
      * assert (He : existsb (fun w => Z.eqb (user_id w) k) us = false).
        { apply existsb_none. intros w Hw. apply Z.eqb_neq. exact (Hn w Hw). }
        destruct fs as [|[] fs]; cbn; rewrite ?Hk, ?He; cbn; repeat split.
Qed.

(** The spec's example: street "St" is rejected and nothing is stored; a
    valid address for user "01" is stored under key 1; a valid address for
    the absent user 999 is refused by the foreign key. *)
Lemma address_create_outcomes_witness :
  let db := mysql_db [mkUser 1 "Ana" None true 1] [] 2 [] [] in
  let bad := mkBody None None None None (Some "1") (Some "St") None (Some "Recife") in
  let good := mkBody None None None None (Some "01") (Some " Rua Azul ") (Some "")
                (Some " Recife ") in
  let orphan := mkBody None None None None (Some "999") (Some " Rua Azul ") (Some "")
                  (Some " Recife ") in
  ((body_street bad = None \/
    (exists st, body_street bad = Some st /\ (String.length (Js.trim st) < 5)%nat) \/
    body_city bad = None \/
    (exists ct, body_city bad = Some ct /\ (String.length (Js.trim ct) < 2)%nat)) /\
   post_address_create bad db = (Ok (Redirect "/users/edit/1"), db)) /\
  (body_street good = Some " Rua Azul " /\ (5 <= String.length (Js.trim " Rua Azul "))%nat /\
   body_city good = Some " Recife " /\ (2 <= String.length (Js.trim " Recife "))%nat /\
   body_userId good = Some "01" /\ key_of (db_backend db) "01" = Some 1 /\
   (exists v, In v (db_users db) /\ user_id v = 1) /\ next_fault db = false) /\
  (let '(r, db') := post_address_create good db in
   r = Ok (Redirect ("/users/edit/" ++ "01")%string) /\
   db_users db' = db_users db /\
   exists a, db_addresses db' = db_addresses db ++ [a] /\
     address_street a = Js.trim " Rua Azul " /\
     address_number a = trim_or_null (body_number good) /\
     address_city a = Js.trim " Recife " /\
     address_userId a = 1) /\
  (key_of (db_backend db) "999" = Some 999 /\
   (forall v, In v (db_users db) -> user_id v <> 999)) /\
  let '(r, db') := post_address_create orphan db in
  r = Ok (Redirect ("/users/edit/" ++ Js.or_string (body_userId orphan) "")%string) /\
  db_users db' = db_users db /\ db_addresses db' = db_addresses db.
Proof.
  cbv zeta.
  pose proof (address_create_outcomes
                (mkBody None None None None (Some "1") (Some "St") None (Some "Recife"))
                (mysql_db [mkUser 1 "Ana" None true 1] [] 2 [] [])) as [Hbad _].
  pose proof (address_create_outcomes
                (mkBody None None None None (Some "01") (Some " Rua Azul ") (Some "")
                   (Some " Recife "))
                (mysql_db [mkUser 1 "Ana" None true 1] [] 2 [] [])) as [_ [Hgood _]].
  pose proof (address_create_outcomes
                (mkBody None None None None (Some "999") (Some " Rua Azul ") (Some "")
                   (Some " Recife "))
                (mysql_db [mkUser 1 "Ana" None true 1] [] 2 [] [])) as [_ [_ Horph]].
  assert (Hs : body_street (mkBody None None None None (Some "1") (Some "St") None (Some "Recife")) = None \/
    (exists st, body_street (mkBody None None None None (Some "1") (Some "St") None (Some "Recife"))
                = Some st /\ (String.length (Js.trim st) < 5)%nat) \/
    body_city (mkBody None None None None (Some "1") (Some "St") None (Some "Recife")) = None \/
    (exists ct, body_city (mkBody None None None None (Some "1") (Some "St") None (Some "Recife"))
                = Some ct /\ (String.length (Js.trim ct) < 2)%nat))
    by (right; left; exists "St"; split; [reflexivity | cbv; lia]).
  assert (Hk1 : key_of (db_backend (mysql_db [mkUser 1 "Ana" None true 1] [] 2 [] [])) "01"
                = Some 1) by (vm_compute; reflexivity).
  assert (Hk9 : key_of (db_backend (mysql_db [mkUser 1 "Ana" None true 1] [] 2 [] [])) "999"
                = Some 999) by (vm_compute; reflexivity).
  assert (Hv1 : exists v, In v (db_users (mysql_db [mkUser 1 "Ana" None true 1] [] 2 [] []))
                          /\ user_id v = 1)
    by (eexists; split; [left; reflexivity | reflexivity]).
  assert (Hn9 : forall v, In v (db_users (mysql_db [mkUser 1 "Ana" None true 1] [] 2 [] [])) ->
                          user_id v <> 999)
    by (intros v [<-|[]]; cbn; discriminate).
  split; [split; [exact Hs | exact (Hbad Hs)]|].
  split; [repeat split; first [reflexivity | exact Hk1 | exact Hv1 | cbv; lia]|].
  split; [apply (Hgood _ _ _ 1); first [reflexivity | exact Hk1 | exact Hv1 | cbv; lia]|].
  split; [split; [exact Hk9 | exact Hn9]|].
  apply (Horph " Rua Azul " " Recife "); [reflexivity | cbv; lia | reflexivity | cbv; lia |].
  right; right. exists "999". split; [reflexivity|]. right. exists 999. split; [exact Hk9 | exact Hn9].
Defined.

(** The redirect target of an address delete as C8 words it: the edit page
    of [userId] when it is supplied, else the listing root. *)
Definition claimed_delete_redirect (userId : option string) : string :=
  match userId with
  | Some u => ("/users/edit/" ++ u)%string
  | None => "/"
  end.

(** C8, counterexample: a supplied but empty [userId] is falsy, so the
    response goes to the listing root, not to "/users/edit/". *)
Lemma address_delete_empty_userId_counterexample :
  let b := mkBody (Some "9") None None None (Some "") None None None in
  let db := mysql_db [] [mkAddress 9 "Rua Azul" None "Recife" 1 9] 10 [] [] in
  fst (post_address_delete b db) <> Ok (Redirect (claimed_delete_redirect (body_userId b))).
Proof. vm_compute. discriminate. Qed.

(** C8, amended. An address delete whose id the database accepts as a key
    removes the address rows whose id equals the submitted id (as the
    database compares them), whatever [userId] is submitted (no ownership
    check), and redirects to the edit page of [userId] when it is a
    non-empty string, else to the listing root. *)
Theorem address_delete_outcome (b : Body) (db : DB) (i : string)
    (Hi : body_id b = Some i) (Hf : next_fault db = false)
    (Ha : key_accepted (db_backend db) i = true) :
  let '(r, db') := post_address_delete b db in
  db_addresses db' =
    filter (fun a => negb (key_eq (db_backend db) (address_id a) i)) (db_addresses db) /\
  db_users db' = db_users db /\
  r = Ok (Redirect (match body_userId b with
                    | Some u => if String.eqb u "" then "/" else ("/users/edit/" ++ u)%string
                    | None => "/"
                    end)).
Proof.
  unfold post_address_delete, try_catch, bind. cbv zeta.
  unfold Address_destroy_id. rewrite (storage_ok _ _ Hf), Hi. unfold where_key.
  rewrite pop_fault_backend, Ha. cbn.
  rewrite pop_fault_addresses, pop_fault_users, ?pop_fault_backend.
  repeat split.
  unfold Js.truthy, Js.template.
  destruct (body_userId b) as [u|]; [|reflexivity].
  destruct (String.eqb u ""); reflexivity.
Qed.

(** The spec's example: id 9 with no [userId] redirects to the root; the
    id "03" deletes address 3, which belongs to another user than the
    submitted one. *)
Lemma address_delete_outcome_witness :
  let b := mkBody (Some "9") None None None None None None None in
  let b3 := mkBody (Some "03") None None None (Some "2") None None None in
  let db := mysql_db [] [mkAddress 3 "Rua Azul" None "Recife" 1 3;
                     mkAddress 9 "Rua Verde" None "Recife" 2 9] 10 [] [] in
  (body_id b = Some "9" /\ next_fault db = false /\ key_accepted (db_backend db) "9" = true) /\
  (let '(r, db') := post_address_delete b db in
   db_addresses db' =
     filter (fun a => negb (key_eq (db_backend db) (address_id a) "9")) (db_addresses db) /\
   db_users db' = db_users db /\
   r = Ok (Redirect (match body_userId b with
                     | Some u => if String.eqb u "" then "/" else ("/users/edit/" ++ u)%string
                     | None => "/"
                     end))) /\
  (body_id b3 = Some "03" /\ key_accepted (db_backend db) "03" = true) /\
  db_addresses (snd (post_address_delete b3 db)) = [mkAddress 9 "Rua Verde" None "Recife" 2 9] /\
  let '(r, db') := post_address_delete b3 db in
  db_addresses db' =
    filter (fun a => negb (key_eq (db_backend db) (address_id a) "03")) (db_addresses db) /\
  db_users db' = db_users db /\
  r = Ok (Redirect (match body_userId b3 with
                    | Some u => if String.eqb u "" then "/" else ("/users/edit/" ++ u)%string
                    | None => "/"
                    end)).
Proof.
  cbv zeta.
  split; [split; [reflexivity | split; [reflexivity | vm_compute; reflexivity]]|].
  split; [apply address_delete_outcome; [reflexivity | reflexivity | vm_compute; reflexivity]|].
  split; [split; [reflexivity | vm_compute; reflexivity]|].
  split; [vm_compute; reflexivity|].
  apply address_delete_outcome; [reflexivity | reflexivity | vm_compute; reflexivity].
Defined.

(** ** Further properties of the handlers *)

Lemma try_catch_ok {A} (body : M A) (handler : string -> M A) (db : DB) :
  (forall e db', exists a, fst (handler e db') = Ok a) ->
  exists a, fst (try_catch body handler db) = Ok a.
Proof.
  intros H. unfold try_catch.
  destruct (body db) as [[a|e] db']; [exists a; reflexivity | apply H].
Qed.

Lemma dispatch_ok (r : Route) (db : DB) : exists x, fst (dispatch r db) = Ok x.
Proof.
  destruct r; cbn [dispatch];
    first [ eexists; reflexivity
          | unfold get_root, post_users_create, get_users_id, get_users_edit,
              post_users_update, post_users_delete, post_address_create,
              post_address_delete;
            apply try_catch_ok; intros; eexists; reflexivity ].
Qed.

(** Every route catches its own failures: whatever the request, the
    database and the storage faults, a handler (and so any sequence of
    requests) produces a response, one per request, and never a rejected
    promise. *)
Theorem run_routes_never_reject (rs : list Route) (db : DB) :
  exists xs, fst (run_routes rs db) = Ok xs /\ length xs = length rs.
Proof.
  revert db. induction rs as [|r rs IH]; intros db; [exists []; split; reflexivity|].
  cbn [run_routes]. unfold bind at 1.
  destruct (dispatch_ok r db) as [x Hx].
  destruct (dispatch r db) as [[x'|e] db1] eqn:E; cbn in Hx; [|discriminate].
  injection Hx as ->.
  unfold bind. destruct (IH db1) as [xs [Hxs Hl]].
  destruct (run_routes rs db1) as [[xs'|e] db2]; cbn in Hxs; [|discriminate].
  injection Hxs as ->. exists (x :: xs). split; [reflexivity | cbn; f_equal; exact Hl].
Qed.

Ltac storage_cases db :=
  unfold storage, where_key in *;
  destruct (db_faults db) as [|[] ?];
  repeat match goal with
         | H : context [match ?o with Some _ => _ | None => _ end] |- _ => destruct o
         | H : context [if ?c then _ else _] |- _ => destruct c
         end;
  cbn in *.

Lemma User_create_err name occ nl db e db1 :
  User_create name occ nl db = (Err e, db1) ->
  db_users db1 = db_users db /\ db_addresses db1 = db_addresses db.
Proof.
  unfold User_create. intros H. storage_cases db; inversion H; subst; auto.
Qed.

Lemma User_update_err name occ nl id db e db1 :
  User_update name occ nl id db = (Err e, db1) ->
  db_users db1 = db_users db /\ db_addresses db1 = db_addresses db.
Proof.
  unfold User_update. intros H. storage_cases db; inversion H; subst; auto.
Qed.

Lemma Address_create_err street number city userId db e db1 :
  Address_create street number city userId db = (Err e, db1) ->
  db_users db1 = db_users db /\ db_addresses db1 = db_addresses db.
Proof.
  unfold Address_create. intros H. storage_cases db; inversion H; subst; auto.
Qed.

Lemma Address_destroy_id_err id db e db1 :
  Address_destroy_id id db = (Err e, db1) ->
  db_users db1 = db_users db /\ db_addresses db1 = db_addresses db.
Proof.
  unfold Address_destroy_id. intros H. storage_cases db; inversion H; subst; auto.
Qed.

(** When storing a valid new user fails, the create form is rendered again
    with a message carrying the failure's text and the whole submitted body
    as form data; no user is added and the failure is logged. *)
Theorem users_create_failure (b : Body) (db db1 : DB) (s e : string)
    (Hn : body_name b = Some s) (Hl : (2 <= String.length (Js.trim s))%nat)
    (Hc : User_create (Js.trim s) (trim_or_null (body_occupation b))
            (Js.strict_eq (body_newsletter b) "on") db = (Err e, db1)) :
  post_users_create b db =
    (Ok (Render "adduser"
           (mkRenderData None None None None None
              (Some ("Erro ao criar usuário: " ++ e)%string) (Some b) None)),
     set_log (db_log db1 ++ [("Erro ao criar usuário: " ++ e)%string]) db1) /\
  db_users db1 = db_users db.
Proof.
  split; [|exact (proj1 (User_create_err _ _ _ _ _ _ Hc))].
  unfold post_users_create, try_catch, bind. cbv zeta.
  rewrite Hn, (name_valid s Hl). cbn [Js.template]. rewrite Hc. reflexivity.
Qed.

Lemma users_create_failure_witness :
  let b := mkBody None (Some "Bob") None None None None None None in
  let db := mysql_db [] [] 1 [true] [] in
  (body_name b = Some "Bob" /\ (2 <= String.length (Js.trim "Bob"))%nat /\
   User_create (Js.trim "Bob") (trim_or_null (body_occupation b))
     (Js.strict_eq (body_newsletter b) "on") db = (Err "storage failure", mysql_db [] [] 1 [] [])) /\
  post_users_create b db =
    (Ok (Render "adduser"
           (mkRenderData None None None None None
              (Some ("Erro ao criar usuário: " ++ "storage failure")%string) (Some b) None)),
     set_log (db_log (mysql_db [] [] 1 [] []) ++ [("Erro ao criar usuário: " ++ "storage failure")%string])
       (mysql_db [] [] 1 [] [])) /\
  db_users (mysql_db [] [] 1 [] []) = db_users db.
Proof.
  cbv zeta. split; [split; [reflexivity | split; [cbv; lia | reflexivity]]|].
  apply (users_create_failure _ _ _ "Bob"); [reflexivity | cbv; lia | reflexivity].
Defined.

(** When the update of a user with a valid name fails (a storage failure,
    or an absent id that the query builder refuses), the response
    redirects to the edit page of the submitted id, or to "/users/edit/"
    when the id is absent or empty, and no user is changed. *)
Theorem users_update_failure (b : Body) (db db1 : DB) (s e : string)
    (Hn : body_name b = Some s) (Hl : (2 <= String.length (Js.trim s))%nat)
    (Hc : User_update (Js.trim s) (trim_or_null (body_occupation b))
            (Js.strict_eq (body_newsletter b) "on") (body_id b) db = (Err e, db1)) :
  fst (post_users_update b db) =
    Ok (Redirect ("/users/edit/" ++ Js.or_string (body_id b) "")%string) /\
  db_users (snd (post_users_update b db)) = db_users db.
Proof.
  pose proof (User_update_err _ _ _ _ _ _ _ Hc) as [Hu _].
  unfold post_users_update, try_catch, bind. cbv zeta.
  rewrite Hn, (name_valid s Hl). cbn [Js.template]. rewrite Hc.
  split; [reflexivity | exact Hu].
Qed.

(** An update with a valid name but no id redirects to "/users/edit/". *)
Lemma users_update_failure_witness :
  let b := mkBody None (Some "Eva") None None None None None None in
  let db := mysql_db [mkUser 5 "Ana" None false 5] [] 6 [] [] in
  (body_name b = Some "Eva" /\ (2 <= String.length (Js.trim "Eva"))%nat /\
   User_update (Js.trim "Eva") (trim_or_null (body_occupation b))
     (Js.strict_eq (body_newsletter b) "on") (body_id b) db
   = (Err "WHERE parameter has invalid undefined value", db)) /\
  fst (post_users_update b db) =
    Ok (Redirect ("/users/edit/" ++ Js.or_string (body_id b) "")%string) /\
  db_users (snd (post_users_update b db)) = db_users db.
Proof.
  cbv zeta. split; [split; [reflexivity | split; [cbv; lia | reflexivity]]|].
  apply (users_update_failure _ _ (mysql_db [mkUser 5 "Ana" None false 5] [] 6 [] [])
           "Eva" "WHERE parameter has invalid undefined value");
    [reflexivity | cbv; lia | reflexivity].
Defined.

Lemma address_valid (b : Body) (st ct : string) :
  body_street b = Some st -> (5 <= String.length (Js.trim st))%nat ->
  body_city b = Some ct -> (2 <= String.length (Js.trim ct))%nat ->
  address_invalid (body_street b) (body_city b) = false.
Proof.
  intros Hs Hls Hc Hlc. unfold address_invalid. rewrite Hs, Hc, <- orb_assoc.
  rewrite (short_valid 5 st), (short_valid 2 ct); auto; lia.
Qed.

(** When storing a valid address fails, the response redirects to the edit
    page of the submitted [userId], or to "/users/edit/" when it is absent
    or empty, and no address is added. *)
Theorem address_create_failure (b : Body) (db db1 : DB) (st ct e : string)
    (Hs : body_street b = Some st) (Hls : (5 <= String.length (Js.trim st))%nat)
    (Hc : body_city b = Some ct) (Hlc : (2 <= String.length (Js.trim ct))%nat)
    (Hf : Address_create (Js.trim st) (trim_or_null (body_number b)) (Js.trim ct)
            (body_userId b) db = (Err e, db1)) :
  fst (post_address_create b db) =
    Ok (Redirect ("/users/edit/" ++ Js.or_string (body_userId b) "")%string) /\
  db_addresses (snd (post_address_create b db)) = db_addresses db.
Proof.
  pose proof (Address_create_err _ _ _ _ _ _ _ Hf) as [_ Ha].
  unfold post_address_create, try_catch, bind. cbv zeta.
  rewrite (address_valid b st ct Hs Hls Hc Hlc), Hs, Hc. cbn [Js.template].
  rewrite Hf. split; [reflexivity | exact Ha].
Qed.

Lemma address_create_failure_witness :
  let b := mkBody None None None None (Some "1") (Some "Rua Azul") None (Some "Recife") in
  let db := mysql_db [mkUser 1 "Ana" None true 1] [] 2 [true] [] in
  (body_street b = Some "Rua Azul" /\ (5 <= String.length (Js.trim "Rua Azul"))%nat /\
   body_city b = Some "Recife" /\ (2 <= String.length (Js.trim "Recife"))%nat /\
   Address_create (Js.trim "Rua Azul") (trim_or_null (body_number b)) (Js.trim "Recife")
     (body_userId b) db = (Err "storage failure", mysql_db [mkUser 1 "Ana" None true 1] [] 2 [] [])) /\
  fst (post_address_create b db) =
    Ok (Redirect ("/users/edit/" ++ Js.or_string (body_userId b) "")%string) /\
  db_addresses (snd (post_address_create b db)) = db_addresses db.
Proof.
  cbv zeta. split; [repeat split; cbv; lia|].
  apply (address_create_failure _ _ (mysql_db [mkUser 1 "Ana" None true 1] [] 2 [] [])
           "Rua Azul" "Recife" "storage failure"); first [reflexivity | cbv; lia].
Defined.

(** When deleting an address fails (a storage failure, or an absent id
    that the query builder refuses), the response redirects to the listing
    root even when a [userId] was submitted, and no address is removed. *)
Theorem address_delete_failure (b : Body) (db db1 : DB) (e : string)
    (Hf : Address_destroy_id (body_id b) db = (Err e, db1)) :
  fst (post_address_delete b db) = Ok (Redirect "/") /\
  db_addresses (snd (post_address_delete b db)) = db_addresses db.
Proof.
  pose proof (Address_destroy_id_err _ _ _ _ Hf) as [_ Ha].
  unfold post_address_delete, try_catch, bind. cbv zeta.
  rewrite Hf. split; [reflexivity | exact Ha].
Qed.

(** No id but a [userId]: the response still goes to the root. *)
Lemma address_delete_failure_witness :
  let b := mkBody None None None None (Some "1") None None None in
  let db := mysql_db [] [mkAddress 9 "Rua Azul" None "Recife" 1 9] 10 [] [] in
  Address_destroy_id (body_id b) db = (Err "WHERE parameter has invalid undefined value", db) /\
  fst (post_address_delete b db) = Ok (Redirect "/") /\
  db_addresses (snd (post_address_delete b db)) = db_addresses db.
Proof.
  cbv zeta. split; [reflexivity|].
  apply (address_delete_failure _ _ (mysql_db [] [mkAddress 9 "Rua Azul" None "Recife" 1 9] 10 [] [])
           "WHERE parameter has invalid undefined value").
  reflexivity.
Defined.

(** The rows a listing renders: none (the error page), or a window of the
    ordered matching users. *)
Lemma get_root_rows (qr : Query) (db : DB) (v : string) (d : RenderData) (rows : list User) :
  fst (get_root qr db) = Ok (Render v d) -> rd_users d = Some rows ->
  rows = [] \/
  rows = firstn (Z.to_nat (limit_param qr))
           (skipn (Z.to_nat ((page_param qr - 1) * limit_param qr))
              (order_createdAt_desc
                 (filter (user_matches (db_backend db) (listing_where qr)) (db_users db)))).
Proof.
  unfold get_root, try_catch, bind, User_findAndCountAll, storage. cbv zeta.
  destruct db as [us as_ n fs l bk].
  destruct fs as [|[] fs]; cbn [db_faults db_users db_backend set_faults];
    try match goal with |- context [if ?c then _ else _] => destruct c end;
    cbn; intros H Hr; injection H as <- <-; cbn in Hr; injection Hr as <-; auto.
Qed.

Lemma In_firstn_l {X} (x : X) n l : In x (firstn n l) -> In x l.
Proof.
  revert l. induction n as [|n IH]; intros [|y l]; cbn; try tauto.
  intros [->|H]; [left; reflexivity | right; exact (IH l H)].
Qed.

Lemma In_skipn_l {X} (x : X) n l : In x (skipn n l) -> In x l.
Proof.
  revert l. induction n as [|n IH]; intros [|y l]; cbn; try tauto.
  intros H. right. exact (IH l H).
Qed.

Lemma In_insert_desc x u l : In x (insert_desc u l) <-> x = u \/ In x l.
Proof.
  induction l as [|v r IH]; cbn; [intuition congruence|].
  destruct (user_createdAt v <? user_createdAt u); cbn; [intuition congruence|].
  rewrite IH. intuition congruence.
Qed.

Lemma In_order x l : In x (order_createdAt_desc l) <-> In x l.
Proof.
  induction l as [|u r IH]; cbn; [tauto|]. rewrite In_insert_desc, IH. intuition congruence.
Qed.

(** Every user a listing shows is stored and passes its filters: its name
    matches the [LIKE '%q%'] pattern when [q] is non-empty, and when the
    [newsletter] parameter is a non-empty string its newsletter flag is
    [true] exactly when that string is "true" (any other value, "1" or "on"
    say, selects the users without newsletter). *)
Theorem listing_rows_filtered (qr : Query) (db : DB) (v : string) (d : RenderData)
    (rows : list User)
    (H : fst (get_root qr db) = Ok (Render v d)) (Hr : rd_users d = Some rows) :
  forall u, In u rows ->
    In u (db_users db) /\
    (forall q, query_q qr = Some q -> q <> "" ->
       like (db_backend db) ("%" ++ q ++ "%")%string (user_name u) = true) /\
    (forall nl, query_newsletter qr = Some nl -> nl <> "" ->
       user_newsletter u = String.eqb nl "true").
Proof.
  intros u Hu.
  destruct (get_root_rows qr db v d rows H Hr) as [-> | ->]; [destruct Hu|].
  apply In_firstn_l, In_skipn_l in Hu. rewrite In_order, filter_In in Hu.
  destruct Hu as [Hin Hm]. split; [exact Hin|].
  unfold user_matches, listing_where in Hm. cbn in Hm.
  apply andb_true_iff in Hm as [Hq Hn]. split.
  - intros q Eq Hne. rewrite Eq in Hq. unfold Js.truthy in Hq.
    rewrite (proj2 (String.eqb_neq q "") Hne) in Hq. exact Hq.
  - intros nl En Hne. rewrite En in Hn. unfold Js.truthy, Js.strict_eq in Hn.
    rewrite (proj2 (String.eqb_neq nl "") Hne) in Hn. cbn in Hn.
    apply Bool.eqb_prop in Hn. symmetry. exact Hn.
Qed.

Lemma listing_rows_filtered_witness :
  let db := mysql_db [mkUser 1 "Ana Silva" None true 1; mkUser 2 "Bia" None false 2;
                  mkUser 3 "Caio Silva" None false 3] [] 4 [] [] in
  let qr := mkQuery None None (Some "Silva") (Some "on") in
  fst (get_root qr db) =
    Ok (Render "home" (mkRenderData (Some [mkUser 3 "Caio Silva" None false 3])
                         (Some 1) (Some 1) (Some "Silva") (Some "on") None None None)) /\
  forall u, In u [mkUser 3 "Caio Silva" None false 3] ->
    In u (db_users db) /\
    (forall q, query_q qr = Some q -> q <> "" ->
       like (db_backend db) ("%" ++ q ++ "%")%string (user_name u) = true) /\
    (forall nl, query_newsletter qr = Some nl -> nl <> "" ->
       user_newsletter u = String.eqb nl "true").
Proof.
  cbv zeta.
  assert (H : fst (get_root (mkQuery None None (Some "Silva") (Some "on"))
                  (mysql_db [mkUser 1 "Ana Silva" None true 1; mkUser 2 "Bia" None false 2;
                         mkUser 3 "Caio Silva" None false 3] [] 4 [] [])) =
    Ok (Render "home" (mkRenderData (Some [mkUser 3 "Caio Silva" None false 3])
                         (Some 1) (Some 1) (Some "Silva") (Some "on") None None None)))
    by reflexivity.
  split; [exact H|].
  exact (listing_rows_filtered _ _ _ _ _ H eq_refl).
Defined.

(** [a] comes before [b] in [createdAt] descending order. *)
Definition newer_first (a b : User) : Prop := user_createdAt b <= user_createdAt a.

Lemma insert_desc_sorted u l :
  StronglySorted newer_first l -> StronglySorted newer_first (insert_desc u l).
Proof.
  induction l as [|v r IH]; intros Hs; cbn.
  - constructor; constructor.
  - apply StronglySorted_inv in Hs as [Hr Hv].
    destruct (user_createdAt v <? user_createdAt u) eqn:E.
    + apply Z.ltb_lt in E. constructor; [constructor; assumption|].
      constructor; [unfold newer_first; lia|].
      eapply Forall_impl; [|exact Hv]. unfold newer_first. intros x Hx. lia.
    + apply Z.ltb_ge in E. constructor; [exact (IH Hr)|].
      apply Forall_forall. intros x Hx. apply In_insert_desc in Hx as [->|Hx].
      * unfold newer_first. lia.
      * exact (proj1 (Forall_forall _ _) Hv x Hx).
Qed.

Lemma order_sorted l : StronglySorted newer_first (order_createdAt_desc l).
Proof.
  induction l as [|u r IH]; cbn; [constructor|]. apply insert_desc_sorted, IH.
Qed.

Lemma skipn_sorted {X} (R : X -> X -> Prop) n l :
  StronglySorted R l -> StronglySorted R (skipn n l).
Proof.
  revert l. induction n as [|n IH]; intros [|x l] Hs; cbn; try exact Hs; try constructor.
  apply IH. exact (proj1 (StronglySorted_inv Hs)).
Qed.

Lemma firstn_sorted {X} (R : X -> X -> Prop) n l :
  StronglySorted R l -> StronglySorted R (firstn n l).
Proof.
  revert l. induction n as [|n IH]; intros [|x l] Hs; cbn; try constructor.
  - apply IH. exact (proj1 (StronglySorted_inv Hs)).
  - apply Forall_forall. intros y Hy.
    exact (proj1 (Forall_forall _ _) (proj2 (StronglySorted_inv Hs)) y (In_firstn_l _ _ _ Hy)).
Qed.

(** The users a listing shows are in [createdAt] descending order: each
    one was created no earlier than every one shown after it. *)
Theorem listing_rows_sorted (qr : Query) (db : DB) (v : string) (d : RenderData)
    (rows : list User)
    (H : fst (get_root qr db) = Ok (Render v d)) (Hr : rd_users d = Some rows) :
  StronglySorted newer_first rows.
Proof.
  destruct (get_root_rows qr db v d rows H Hr) as [-> | ->]; [constructor|].
  apply firstn_sorted, skipn_sorted, order_sorted.
Qed.

Lemma listing_rows_sorted_witness :
  let db := mysql_db [mkUser 1 "Ana" None true 1; mkUser 2 "Bia" None false 2;
                  mkUser 3 "Caio" None true 3] [] 4 [] [] in
  let qr := mkQuery None None None None in
  fst (get_root qr db) =
    Ok (Render "home" (mkRenderData (Some [mkUser 3 "Caio" None true 3;
                                           mkUser 2 "Bia" None false 2;
                                           mkUser 1 "Ana" None true 1])
                         (Some 1) (Some 1) None None None None None)) /\
  StronglySorted newer_first [mkUser 3 "Caio" None true 3; mkUser 2 "Bia" None false 2;
                              mkUser 1 "Ana" None true 1].
Proof.
  cbv zeta.
  assert (H : fst (get_root (mkQuery None None None None)
                  (mysql_db [mkUser 1 "Ana" None true 1; mkUser 2 "Bia" None false 2;
                         mkUser 3 "Caio" None true 3] [] 4 [] [])) =
    Ok (Render "home" (mkRenderData (Some [mkUser 3 "Caio" None true 3;
                                           mkUser 2 "Bia" None false 2;
                                           mkUser 1 "Ana" None true 1])
                         (Some 1) (Some 1) None None None None None))) by reflexivity.
  split; [exact H|]. exact (listing_rows_sorted _ _ _ _ _ H eq_refl).
Defined.

(** *** [trim] is idempotent *)

Lemma ltrim_l_idem l : Js.ltrim_l (Js.ltrim_l l) = Js.ltrim_l l.
Proof.
  induction l as [|c l IH]; cbn; [reflexivity|].
  destruct (Js.is_space c) eqn:E; [exact IH|]. cbn. rewrite E. reflexivity.
Qed.

Lemma ltrim_l_snoc l c :
  Js.is_space c = false -> Js.ltrim_l (l ++ [c]) = Js.ltrim_l l ++ [c].
Proof.
  intros Hc. induction l as [|x l IH]; cbn; [rewrite Hc; reflexivity|].
  destruct (Js.is_space x); [exact IH | reflexivity].
Qed.

Lemma ltrim_l_fixed_rtrim m :
  Js.ltrim_l m = m -> Js.ltrim_l (rev (Js.ltrim_l (rev m))) = rev (Js.ltrim_l (rev m)).
Proof.
  destruct m as [|c m]; [reflexivity|]. cbn.
  destruct (Js.is_space c) eqn:E.
  - intros H. assert (Hl : length (Js.ltrim_l m) = S (length m)) by (rewrite H; reflexivity).
    assert (Hle : (length (Js.ltrim_l m) <= length m)%nat).
    { clear. induction m as [|x m IH]; cbn; [lia|]. destruct (Js.is_space x); cbn; lia. }
    lia.
  - intros _. rewrite (ltrim_l_snoc _ _ E), rev_app_distr. cbn. rewrite E. reflexivity.
Qed.

Lemma trim_idem s : Js.trim (Js.trim s) = Js.trim s.
Proof.
  unfold Js.trim. rewrite list_ascii_of_string_of_list_ascii. f_equal.
  set (m := Js.ltrim_l (list_ascii_of_string s)).
  rewrite (ltrim_l_fixed_rtrim m (ltrim_l_idem _)), rev_involutive, ltrim_l_idem.
  reflexivity.
Qed.

(** *** What each handler does to the stored users and addresses *)

Lemma name_invalid_false v :
  name_invalid v = false -> exists s, v = Some s /\ (2 <= String.length (Js.trim s))%nat.
Proof.
  intros H. destruct v as [s|].
  - exists s. split; [reflexivity|].
    destruct (Nat.le_gt_cases 2 (String.length (Js.trim s))) as [Hle|Hlt]; [exact Hle|].
    assert (Hi : name_invalid (Some s) = true)
      by (apply name_invalid_spec; right; exists s; split; [reflexivity | lia]).
    congruence.
  - discriminate.
Qed.

Lemma address_invalid_false st ct :
  address_invalid st ct = false ->
  (exists s, st = Some s /\ (5 <= String.length (Js.trim s))%nat) /\
  (exists c, ct = Some c /\ (2 <= String.length (Js.trim c))%nat).
Proof.
  unfold address_invalid. rewrite <- orb_assoc. intros H.
  apply orb_false_iff in H as [H1 H2].
  split; [destruct st as [s|] | destruct ct as [c|]]; try discriminate;
    [exists s | exists c]; (split; [reflexivity|]).
  - destruct (Nat.le_gt_cases 5 (String.length (Js.trim s))) as [Hle|Hlt]; [exact Hle|].
    rewrite (proj2 (short_invalid_spec 5 (Some s) ltac:(lia))) in H1; [discriminate|].
    right. exists s. split; [reflexivity | lia].
  - destruct (Nat.le_gt_cases 2 (String.length (Js.trim c))) as [Hle|Hlt]; [exact Hle|].
    rewrite (proj2 (short_invalid_spec 2 (Some c) ltac:(lia))) in H2; [discriminate|].
    right. exists c. split; [reflexivity | lia].
Qed.

Ltac run_handler :=
  repeat (match goal with
          | |- context [match ?db with mkDB _ _ _ _ _ _ => _ end] => destruct db
          | |- context [match ?fs with [] => _ | _ :: _ => _ end] =>
              lazymatch fs with context [db_faults] => fail | _ => destruct fs end
          | |- context [if ?b then _ else _] => destruct b
          | |- context [match ?k with O => _ | S _ => _ end] => destruct k
          end; cbn).

Lemma create_effect (b : Body) (db : DB) :
  let db' := snd (post_users_create b db) in
  db_addresses db' = db_addresses db /\
  (db_users db' = db_users db \/
   exists s u, body_name b = Some s /\ (2 <= String.length (Js.trim s))%nat /\
     user_name u = Js.trim s /\ db_users db' = db_users db ++ [u]).
Proof.
  cbv zeta. unfold post_users_create, try_catch, bind, User_create, storage, log, ret.
  cbv zeta. destruct (name_invalid (body_name b)) eqn:Hi; [split; [|left]; reflexivity|].
  apply name_invalid_false in Hi as [s [Hs Hl]]. rewrite Hs.
  destruct db as [us as_ n fs l bk]. destruct fs as [|[] fs]; cbn;
    (split; [reflexivity|]); solve [left; reflexivity | right; eexists s, _; repeat split; eauto].
Qed.

Lemma update_effect (b : Body) (db : DB) :
  let db' := snd (post_users_update b db) in
  db_addresses db' = db_addresses db /\
  (db_users db' = db_users db \/
   exists s i g, body_name b = Some s /\ (2 <= String.length (Js.trim s))%nat /\
     (forall u, user_name (g u) = Js.trim s /\ user_id (g u) = user_id u) /\
     db_users db' =
       map (fun u => if key_eq (db_backend db) (user_id u) i then g u else u) (db_users db)).
Proof.
  cbv zeta. unfold post_users_update, try_catch, bind, User_update, storage, where_key, log, ret.
  cbv zeta. destruct (name_invalid (body_name b)) eqn:Hi; [split; [|left]; reflexivity|].
  apply name_invalid_false in Hi as [s [Hs Hl]]. rewrite Hs.
  destruct db as [us as_ n fs l bk].
  destruct (body_id b) as [i|];
    destruct fs as [|[] fs]; cbn; run_handler; cbn;
    (split; [reflexivity|]);
    solve [left; reflexivity
          | right; exists s, i, (fun u => mkUser (user_id u) (Js.trim s)
                   (trim_or_null (body_occupation b)) (Js.strict_eq (body_newsletter b) "on")
                   (user_createdAt u));
            repeat split; eauto].
Qed.

Lemma delete_effect (id : string) (db : DB) :
  let db' := snd (post_users_delete id db) in
  (db_users db' = db_users db /\ db_addresses db' = db_addresses db) \/
  (db_users db' = db_users db /\
   db_addresses db' =
     filter (fun a => negb (key_eq (db_backend db) (address_userId a) id)) (db_addresses db)) \/
  (db_users db' = filter (fun u => negb (key_eq (db_backend db) (user_id u) id)) (db_users db) /\
   db_addresses db' =
     filter (fun a => negb (key_eq (db_backend db) (address_userId a) id)) (db_addresses db)).
Proof.
  cbv zeta. unfold post_users_delete, try_catch, bind, Address_destroy_userId, User_destroy,
    storage, where_key, log, ret.
  destruct db as [us as_ n fs l bk].
  destruct fs as [|[] [|[] fs]]; cbn; run_handler; cbn; tauto.
Qed.

Lemma address_create_effect (b : Body) (db : DB) :
  let db' := snd (post_address_create b db) in
  db_users db' = db_users db /\
  (db_addresses db' = db_addresses db \/
   exists st ct a, body_street b = Some st /\ (5 <= String.length (Js.trim st))%nat /\
     body_city b = Some ct /\ (2 <= String.length (Js.trim ct))%nat /\
     address_street a = Js.trim st /\ address_city a = Js.trim ct /\
     (exists u, In u (db_users db) /\ user_id u = address_userId a) /\
     db_addresses db' = db_addresses db ++ [a]).
Proof.
  cbv zeta. unfold post_address_create, try_catch, bind, Address_create, storage, log, ret.
  cbv zeta. destruct (address_invalid (body_street b) (body_city b)) eqn:Hi;
    [split; [|left]; reflexivity|].
  apply address_invalid_false in Hi as [[st [Hs Hls]] [ct [Hc Hlc]]]. rewrite Hs, Hc.
  destruct db as [us as_ n fs l bk].
  destruct (body_userId b) as [uid|]; [|destruct fs as [|[] fs]; cbn; (split; [reflexivity | left; reflexivity])].
  destruct fs as [|[] fs]; cbn [db_faults]; [| cbn; (split; [reflexivity | left; reflexivity]) |];
    cbn; destruct (key_of bk uid) as [k|]; cbn; try (split; [reflexivity | left; reflexivity]);
    destruct (existsb (fun u => Z.eqb (user_id u) k) us) eqn:E; cbn;
    try (split; [reflexivity | left; reflexivity]);
    apply existsb_exists in E as [v [Hv Hvk]]; apply Z.eqb_eq in Hvk;
    (split; [reflexivity|]); right; eexists st, ct, _; repeat split; eauto.
Qed.

Lemma address_delete_effect (b : Body) (db : DB) :
  let db' := snd (post_address_delete b db) in
  db_users db' = db_users db /\
  (db_addresses db' = db_addresses db \/
   exists i, db_addresses db' =
     filter (fun a => negb (key_eq (db_backend db) (address_id a) i)) (db_addresses db)).
Proof.
  cbv zeta. unfold post_address_delete, try_catch, bind, Address_destroy_id,
    storage, where_key, log, ret.
  destruct db as [us as_ n fs l bk].
  destruct (body_id b) as [i|]; destruct fs as [|[] fs]; cbn; run_handler; cbn;
    (split; [reflexivity|]); solve [left; reflexivity | right; eexists; reflexivity].
Qed.

Lemma read_only_effect (r : Route) (db : DB) :
  match r with
  | GetRoot _ | GetUsersCreate | GetUsersId _ | GetUsersEdit _ | NotFound => True
  | _ => False
  end ->
  db_users (snd (dispatch r db)) = db_users db /\
  db_addresses (snd (dispatch r db)) = db_addresses db.
Proof.
  intros Hr. destruct db as [us as_ n fs l bk].
  destruct r; try contradiction; cbn [dispatch];
    unfold get_root, get_users_id, get_users_edit, get_users_create, not_found,
      try_catch, bind, User_findAndCountAll, User_findByPk, storage, log, ret;
    cbv zeta; destruct fs as [|[] fs]; cbn; run_handler;
    repeat match goal with |- context [match find ?f ?l with _ => _ end] =>
             destruct (find f l) end;
    cbn; split; reflexivity.
Qed.

Lemma run_routes_cons_db (r : Route) (rs : list Route) (db : DB) :
  snd (run_routes (r :: rs) db) = snd (run_routes rs (snd (dispatch r db))).
Proof.
  cbn [run_routes]. unfold bind at 1.
  destruct (dispatch_ok r db) as [x Hx].
  destruct (dispatch r db) as [[x'|e] db1]; cbn in Hx; [|discriminate].
  unfold bind. cbn [snd]. destruct (run_routes rs db1) as [[xs|e] db2]; reflexivity.
Qed.

Lemma run_routes_invariant (Q : Route -> Prop) (P : DB -> Prop) :
  (forall r db, Q r -> P db -> P (snd (dispatch r db))) ->
  forall rs db, Forall Q rs -> P db -> P (snd (run_routes rs db)).
Proof.
  intros Hstep rs. induction rs as [|r rs IH]; intros db HQ HP; [exact HP|].
  inversion HQ as [|? ? Hr Hrs]; subst.
  rewrite run_routes_cons_db. apply IH; [exact Hrs|]. apply Hstep; assumption.
Qed.

Lemma Forall_filter_l {X} (P : X -> Prop) (f : X -> bool) l :
  Forall P l -> Forall P (filter f l).
Proof.
  intros H. apply Forall_forall. intros x Hx. apply filter_In in Hx as [Hx _].
  exact (proj1 (Forall_forall _ _) H x Hx).
Qed.

(** A stored user's name is trimmed and at least 2 characters long. *)
Definition user_ok (u : User) : Prop :=
  Js.trim (user_name u) = user_name u /\ (2 <= String.length (user_name u))%nat.

(** A stored address's street (at least 5 characters) and city (at least
    2) are trimmed. *)
Definition address_ok (a : Address) : Prop :=
  Js.trim (address_street a) = address_street a /\
  (5 <= String.length (address_street a))%nat /\
  Js.trim (address_city a) = address_city a /\
  (2 <= String.length (address_city a))%nat.

(** Every address belongs to a stored user. *)
Definition no_orphans (db : DB) : Prop :=
  forall a, In a (db_addresses db) ->
    exists u, In u (db_users db) /\ user_id u = address_userId a.

Lemma dispatch_users_ok (r : Route) (db : DB) :
  Forall user_ok (db_users db) -> Forall user_ok (db_users (snd (dispatch r db))).
Proof.
  intros H. destruct r as [qr| |b|id|id|b|id|b|b|];
    try (match goal with |- context [dispatch ?r db] =>
           rewrite (proj1 (read_only_effect r db I)) end; exact H); cbn [dispatch].
  - destruct (create_effect b db) as [_ [->|[s [u [_ [Hl [Hn ->]]]]]]]; [exact H|].
    apply Forall_app. split; [exact H|]. constructor; [|constructor].
    unfold user_ok. rewrite Hn, trim_idem. split; [reflexivity | exact Hl].
  - destruct (update_effect b db) as [_ [->|[s [i [g [_ [Hl [Hg ->]]]]]]]]; [exact H|].
    apply Forall_forall. intros x Hx. apply in_map_iff in Hx as [u [<- Hu]].
    destruct (key_eq (db_backend db) (user_id u) i).
    + unfold user_ok. rewrite (proj1 (Hg u)), trim_idem. split; [reflexivity | exact Hl].
    + exact (proj1 (Forall_forall _ _) H u Hu).
  - destruct (delete_effect id db) as [[-> _]|[[-> _]|[-> _]]];
      [exact H | exact H | apply Forall_filter_l, H].
  - rewrite (proj1 (address_create_effect b db)). exact H.
  - rewrite (proj1 (address_delete_effect b db)). exact H.
Qed.

Lemma dispatch_addresses_ok (r : Route) (db : DB) :
  Forall address_ok (db_addresses db) ->
  Forall address_ok (db_addresses (snd (dispatch r db))).
Proof.
  intros H. destruct r as [qr| |b|id|id|b|id|b|b|];
    try (match goal with |- context [dispatch ?r db] =>
           rewrite (proj2 (read_only_effect r db I)) end; exact H); cbn [dispatch].
  - rewrite (proj1 (create_effect b db)). exact H.
  - rewrite (proj1 (update_effect b db)). exact H.
  - destruct (delete_effect id db) as [[_ ->]|[[_ ->]|[_ ->]]];
      [exact H | apply Forall_filter_l, H | apply Forall_filter_l, H].
  - destruct (address_create_effect b db)
      as [_ [->|[st [ct [a [_ [Hls [_ [Hlc [Hs [Hc [_ ->]]]]]]]]]]]]; [exact H|].
    apply Forall_app. split; [exact H|]. constructor; [|constructor].
    unfold address_ok. rewrite Hs, Hc, !trim_idem. repeat split; assumption.
  - destruct (address_delete_effect b db) as [_ [->|[i ->]]];
      [exact H | apply Forall_filter_l, H].
Qed.

(** Whatever requests arrive, in any order and with any storage failures,
    every stored user keeps a trimmed name of at least 2 characters, given
    that the users stored at the start have one. *)
Theorem routes_keep_user_names (rs : list Route) (db : DB)
    (H : Forall user_ok (db_users db)) :
  Forall user_ok (db_users (snd (run_routes rs db))).
Proof.
  apply (run_routes_invariant (fun _ => True) (fun db => Forall user_ok (db_users db)));
    [intros r db' _; apply dispatch_users_ok | apply Forall_forall; intros; exact I | exact H].
Qed.

Lemma routes_keep_user_names_witness :
  let rs := [PostUsersCreate (mkBody None (Some "  Bob  ") None None None None None None);
             PostUsersUpdate (mkBody (Some "1") (Some " Ana ") None None None None None None);
             PostUsersCreate (mkBody None (Some " A ") None None None None None None)] in
  let db := mysql_db [mkUser 1 "Ana" None true 1] [] 2 [] [] in
  Forall user_ok (db_users db) /\ Forall user_ok (db_users (snd (run_routes rs db))).
Proof.
  cbv zeta.
  assert (H : Forall user_ok (db_users (mysql_db [mkUser 1 "Ana" None true 1] [] 2 [] [])))
    by (repeat constructor; cbv; lia).
  split; [exact H | apply routes_keep_user_names, H].
Defined.

(** Likewise every stored address keeps a trimmed street of at least 5
    characters and a trimmed city of at least 2. *)
Theorem routes_keep_address_fields (rs : list Route) (db : DB)
    (H : Forall address_ok (db_addresses db)) :
  Forall address_ok (db_addresses (snd (run_routes rs db))).
Proof.
  apply (run_routes_invariant (fun _ => True) (fun db => Forall address_ok (db_addresses db)));
    [intros r db' _; apply dispatch_addresses_ok | apply Forall_forall; intros; exact I | exact H].
Qed.

Lemma routes_keep_address_fields_witness :
  let rs := [PostAddressCreate (mkBody None None None None (Some "1") (Some " Rua Azul ")
                                  None (Some " Recife "));
             PostAddressCreate (mkBody None None None None (Some "1") (Some "St") None (Some "X"))] in
  let db := mysql_db [mkUser 1 "Ana" None true 1] [] 2 [] [] in
  Forall address_ok (db_addresses db) /\
  Forall address_ok (db_addresses (snd (run_routes rs db))).
Proof.
  cbv zeta.
  assert (H : Forall address_ok (db_addresses (mysql_db [mkUser 1 "Ana" None true 1] [] 2 [] [])))
    by constructor.
  split; [exact H | apply routes_keep_address_fields, H].
Defined.

Definition not_address_create (r : Route) : Prop :=
  match r with PostAddressCreate _ => False | _ => True end.

Lemma dispatch_keeps_no_orphans (r : Route) (db : DB) :
  no_orphans db -> no_orphans (snd (dispatch r db)).
Proof.
  intros H. destruct r as [qr| |b|id|id|b|id|b|b|];
    try (match goal with |- context [dispatch ?r db] =>
           unfold no_orphans; rewrite (proj1 (read_only_effect r db I)),
             (proj2 (read_only_effect r db I)) end; exact H);
    cbn [dispatch]; unfold no_orphans in *.
  - destruct (create_effect b db) as [-> [->|[s [u [_ [_ [_ ->]]]]]]]; [exact H|].
    intros a Ha. destruct (H a Ha) as [v [Hv Hid]].
    exists v. split; [apply in_or_app; left; exact Hv | exact Hid].
  - destruct (update_effect b db) as [-> [->|[s [i [g [_ [_ [Hg ->]]]]]]]]; [exact H|].
    intros a Ha. destruct (H a Ha) as [v [Hv Hid]].
    exists (if key_eq (db_backend db) (user_id v) i then g v else v). split.
    + apply in_map_iff. exists v. split; [reflexivity | exact Hv].
    + destruct (key_eq (db_backend db) (user_id v) i); [rewrite (proj2 (Hg v))|]; exact Hid.
  - destruct (delete_effect id db) as [[-> ->]|[[-> ->]|[-> ->]]]; [exact H| |];
      intros a Ha; apply filter_In in Ha as [Ha Hna];
      destruct (H a Ha) as [v [Hv Hid]]; exists v; (split; [|exact Hid]); [exact Hv|].
    apply filter_In. split; [exact Hv|]. rewrite Hid. exact Hna.
  - destruct (address_create_effect b db)
      as [-> [->|[st [ct [a' [_ [_ [_ [_ [_ [_ [Hown ->]]]]]]]]]]]]; [exact H|].
    intros a Ha. apply in_app_or in Ha as [Ha|[<-|[]]]; [exact (H a Ha) | exact Hown].
  - destruct (address_delete_effect b db) as [-> [->|[i ->]]]; [exact H|].
    intros a Ha. apply filter_In in Ha as [Ha _]. exact (H a Ha).
Qed.

Lemma dispatch_no_orphans (r : Route) (db : DB) :
  not_address_create r -> no_orphans db -> no_orphans (snd (dispatch r db)).
Proof. intros _. apply dispatch_keeps_no_orphans. Qed.

(** No route other than address creation can leave an address without its
    user: in particular deleting a user removes its addresses before the
    user row, so even when either delete fails no address is orphaned. *)
Theorem routes_keep_no_orphans (rs : list Route) (db : DB)
    (Hrs : Forall not_address_create rs) (H : no_orphans db) :
  no_orphans (snd (run_routes rs db)).
Proof.
  exact (run_routes_invariant not_address_create no_orphans dispatch_no_orphans rs db Hrs H).
Qed.

Lemma routes_keep_no_orphans_witness :
  let rs := [PostUsersDelete "1"; PostUsersUpdate (mkBody (Some "2") (Some "Bia") None None
                                                     None None None None)] in
  let db := mysql_db [mkUser 1 "Ana" None true 1; mkUser 2 "Bia" None false 2]
                 [mkAddress 3 "Rua Azul" None "Recife" 1 3;
                  mkAddress 4 "Rua Verde" None "Recife" 2 4] 5 [false; true] [] in
  (Forall not_address_create rs /\ no_orphans db) /\ no_orphans (snd (run_routes rs db)).
Proof.
  cbv zeta.
  assert (Hrs : Forall not_address_create
                  [PostUsersDelete "1"; PostUsersUpdate (mkBody (Some "2") (Some "Bia") None None
                                                           None None None None)])
    by (repeat constructor).
  assert (H : no_orphans (mysql_db [mkUser 1 "Ana" None true 1; mkUser 2 "Bia" None false 2]
                 [mkAddress 3 "Rua Azul" None "Recife" 1 3;
                  mkAddress 4 "Rua Verde" None "Recife" 2 4] 5 [false; true] [])).
  { intros a [<-|[<-|[]]]; cbn.
    - exists (mkUser 1 "Ana" None true 1). split; [left|]; reflexivity.
    - exists (mkUser 2 "Bia" None false 2). split; [right; left|]; reflexivity. }
  split; [split; [exact Hrs | exact H] | apply routes_keep_no_orphans; assumption].
Defined.

(** With the foreign key on [Address.userId], address creation cannot
    orphan an address either: whatever requests arrive, in any order and
    with any storage failures, every stored address belongs to a stored
    user, given that this holds at the start. *)
Theorem routes_keep_no_orphans_all (rs : list Route) (db : DB) (H : no_orphans db) :
  no_orphans (snd (run_routes rs db)).
Proof.
  apply (run_routes_invariant (fun _ => True) no_orphans);
    [intros r db' _; apply dispatch_keeps_no_orphans | apply Forall_forall; intros; exact I | exact H].
Qed.

(** Addresses for the users "01" and "999" (absent) are submitted, then
    user 1 is deleted: the first address is stored and then removed with
    its user, the second is refused. *)
Lemma routes_keep_no_orphans_all_witness :
  let rs := [PostAddressCreate (mkBody None None None None (Some "01") (Some "Rua Azul")
                                  None (Some "Recife"));
             PostAddressCreate (mkBody None None None None (Some "999") (Some "Rua Verde")
                                  None (Some "Recife"));
             PostUsersDelete "1"] in
  let db := mysql_db [mkUser 1 "Ana" None true 1; mkUser 2 "Bia" None false 2] [] 3 [] [] in
  no_orphans db /\ no_orphans (snd (run_routes rs db)) /\
  db_addresses (snd (run_routes (firstn 2 rs) db)) =
    [mkAddress 3 "Rua Azul" None "Recife" 1 3].
Proof.
  cbv zeta.
  assert (H : no_orphans (mysql_db [mkUser 1 "Ana" None true 1; mkUser 2 "Bia" None false 2]
                            [] 3 [] [])) by (intros a []).
  split; [exact H|]. split; [apply routes_keep_no_orphans_all, H | vm_compute; reflexivity].
Defined.

Lemma find_unique {X} (f : X -> bool) (l : list X) (x : X) :
  In x l -> f x = true -> (forall y, In y l -> f y = true -> y = x) -> find f l = Some x.
Proof.
  induction l as [|y l IH]; intros Hx Hf Hu; [destruct Hx|]. cbn.
  destruct (f y) eqn:E.
  - f_equal. apply Hu; [left; reflexivity | exact E].
  - destruct Hx as [<-|Hx]; [congruence|].
    apply IH; [exact Hx | exact Hf | intros z Hz; apply Hu; right; exact Hz].
Qed.

(** For a stored user whose key equals the requested id as the database
    compares them (and no other user's does), when the lookup answers, the
    detail page renders [userview] and the edit page renders [useredit],
    both with the user and exactly the addresses whose [userId] is its
    id. *)
Theorem user_lookup_found (db : DB) (id : string) (u : User)
    (Hf : next_fault db = false) (Hin : In u (db_users db))
    (Hk : key_eq (db_backend db) (user_id u) id = true)
    (Hone : forall v, In v (db_users db) -> key_eq (db_backend db) (user_id v) id = true -> v = u) :
  fst (get_users_id id db) =
    Ok (Render "userview" (mkRenderData None None None None None None None
                             (Some (u, addresses_of u db)))) /\
  fst (get_users_edit id db) =
    Ok (Render "useredit" (mkRenderData None None None None None None None
                             (Some (u, addresses_of u db)))).
Proof.
  unfold get_users_id, get_users_edit, try_catch, bind, User_findByPk.
  rewrite !(storage_ok _ _ Hf).
  assert (Hp : find_user id (pop_fault db) = Some u).
  { unfold find_user. rewrite pop_fault_users, pop_fault_backend.
    apply find_unique; assumption. }
  assert (Ha : addresses_of u (pop_fault db) = addresses_of u db)
    by (unfold addresses_of; rewrite pop_fault_addresses; reflexivity).
  rewrite Hp, Ha. split; reflexivity.
Qed.

(** The id "01" finds user 1 and its address 3. *)
Lemma user_lookup_found_witness :
  let db := mysql_db [mkUser 1 "Ana" None true 1; mkUser 2 "Bia" None false 2]
                 [mkAddress 3 "Rua Azul" None "Recife" 1 3;
                  mkAddress 4 "Rua Verde" None "Recife" 2 4] 5 [] [] in
  (next_fault db = false /\ In (mkUser 1 "Ana" None true 1) (db_users db) /\
   key_eq (db_backend db) 1 "01" = true /\
   (forall v, In v (db_users db) -> key_eq (db_backend db) (user_id v) "01" = true ->
      v = mkUser 1 "Ana" None true 1)) /\
  addresses_of (mkUser 1 "Ana" None true 1) db = [mkAddress 3 "Rua Azul" None "Recife" 1 3] /\
  fst (get_users_id "01" db) =
    Ok (Render "userview" (mkRenderData None None None None None None None
                             (Some (mkUser 1 "Ana" None true 1,
                                    addresses_of (mkUser 1 "Ana" None true 1) db)))) /\
  fst (get_users_edit "01" db) =
    Ok (Render "useredit" (mkRenderData None None None None None None None
                             (Some (mkUser 1 "Ana" None true 1,
                                    addresses_of (mkUser 1 "Ana" None true 1) db)))).
Proof.
  cbv zeta.
  assert (Hk : key_eq (db_backend (mysql_db [mkUser 1 "Ana" None true 1; mkUser 2 "Bia" None false 2]
                 [mkAddress 3 "Rua Azul" None "Recife" 1 3;
                  mkAddress 4 "Rua Verde" None "Recife" 2 4] 5 [] [])) 1 "01" = true)
    by (vm_compute; reflexivity).
  assert (Hone : forall v, In v (db_users (mysql_db [mkUser 1 "Ana" None true 1; mkUser 2 "Bia" None false 2]
                 [mkAddress 3 "Rua Azul" None "Recife" 1 3;
                  mkAddress 4 "Rua Verde" None "Recife" 2 4] 5 [] [])) ->
      key_eq (db_backend (mysql_db [mkUser 1 "Ana" None true 1; mkUser 2 "Bia" None false 2]
                 [mkAddress 3 "Rua Azul" None "Recife" 1 3;
                  mkAddress 4 "Rua Verde" None "Recife" 2 4] 5 [] [])) (user_id v) "01" = true ->
      v = mkUser 1 "Ana" None true 1).
  { intros v [<-|[<-|[]]] E; [reflexivity|]. vm_compute in E. discriminate. }
  split; [split; [reflexivity | split; [left; reflexivity | split; [exact Hk | exact Hone]]]|].
  split; [reflexivity|].
  apply user_lookup_found; [reflexivity | left; reflexivity | exact Hk | exact Hone].
Defined.

(** An update request, whatever its outcome, never adds, removes or
    reorders users, never changes a user's id or creation time, and never
    touches the addresses. *)
Theorem users_update_keeps_keys (b : Body) (db : DB) :
  let db' := snd (post_users_update b db) in
  map user_id (db_users db') = map user_id (db_users db) /\
  map user_createdAt (db_users db') = map user_createdAt (db_users db) /\
  db_addresses db' = db_addresses db.
Proof.
  cbv zeta. unfold post_users_update, try_catch, bind, User_update, storage, where_key, log, ret.
  cbv zeta. destruct (name_invalid (body_name b)); [repeat split|].
  destruct db as [us as_ n fs l bk].
  destruct (body_id b) as [i|]; destruct fs as [|[] fs]; cbn; run_handler; cbn;
    rewrite ?map_map; repeat split;
    apply map_ext; intros u; destruct (key_eq bk (user_id u) i); reflexivity.
Qed.

(** The [range] helper, for integer bounds whose magnitude is at most
    2^53 (so that JavaScript computes [i + from] exactly), lists the
    integers from [from] to [to] in increasing order, and nothing when
    [to < from]; it throws a [RangeError] when the length [to - from + 1]
    is beyond 2^32 - 1. *)
Theorem range_spec (from to : Z)
    (Hfrom : - 2 ^ 53 <= from <= 2 ^ 53) (Hto : - 2 ^ 53 <= to <= 2 ^ 53) :
  (to - from + 1 <= 2 ^ 32 - 1 ->
   exists l, Helpers.range from to = Ok l /\
     (forall k, In k l <-> from <= k <= to) /\
     length l = Z.to_nat (to - from + 1) /\
     (forall i, (i < length l)%nat -> nth i l 0 = from + Z.of_nat i)) /\
  (2 ^ 32 - 1 < to - from + 1 -> Helpers.range from to = Err "RangeError: Invalid array length").
Proof.
  unfold Helpers.range. cbv zeta. split.
  - intros Hlen. rewrite (proj2 (Z.ltb_ge _ _) Hlen).
    eexists. split; [reflexivity|]. split; [|split].
    + intros k. rewrite in_map_iff. split.
      * intros [i [<- Hi]]. apply in_seq in Hi. lia.
      * intros Hk. exists (Z.to_nat (k - from)). split; [lia|].
        apply in_seq. lia.
    + rewrite length_map, length_seq. reflexivity.
    + intros i Hi. rewrite length_map, length_seq in Hi.
      set (f := fun i0 : nat => Z.of_nat i0 + from).
      assert (E : nth i (map f (seq 0 (Z.to_nat (to - from + 1)))) 0
                  = nth i (map f (seq 0 (Z.to_nat (to - from + 1)))) (f 0%nat))
        by (apply nth_indep; rewrite length_map, length_seq; exact Hi).
      rewrite E, map_nth, seq_nth by exact Hi. unfold f. lia.
  - intros Hlen. rewrite (proj2 (Z.ltb_lt _ _) Hlen). reflexivity.
Qed.

(** [range(2, 5)] is [2, 3, 4, 5], [range(5, 2)] is empty and
    [range(0, 2^32 - 1)] throws. *)
Lemma range_spec_witness :
  ((- 2 ^ 53 <= 2 <= 2 ^ 53) /\ (- 2 ^ 53 <= 5 <= 2 ^ 53)) /\
  Helpers.range 2 5 = Ok [2; 3; 4; 5] /\ Helpers.range 5 2 = Ok [] /\
  ((5 - 2 + 1 <= 2 ^ 32 - 1 ->
    exists l, Helpers.range 2 5 = Ok l /\
      (forall k, In k l <-> 2 <= k <= 5) /\
      length l = Z.to_nat (5 - 2 + 1) /\
      (forall i, (i < length l)%nat -> nth i l 0 = 2 + Z.of_nat i)) /\
   (2 ^ 32 - 1 < 5 - 2 + 1 -> Helpers.range 2 5 = Err "RangeError: Invalid array length")) /\
  Helpers.range 0 (2 ^ 32 - 1) = Err "RangeError: Invalid array length".
Proof.
  split; [split; lia|].
  split; [reflexivity|]. split; [reflexivity|].
  split; [apply range_spec; lia|].
  apply (range_spec 0 (2 ^ 32 - 1)); lia.
Defined.
